(** * check-mark-backend: the account lifecycle service

    A shallow embedding of [src/routes/user/user.service.ts] and of the
    refresh handler of [src/routes/user/user.controller.ts].

    The service functions are [async] JavaScript functions that read and
    write two stores (users, revoked refresh tokens), read the clock and
    the random source, send mail, set cookies and may throw.  They are
    embedded in a state-and-exception monad [M] over a [World]; every
    externally visible effect is appended, in program order, to the
    world's [trace]. *)

From Stdlib Require Import ZArith String Ascii List Lia.
From stdpp Require Import base option strings gmap.
Import ListNotations.

Local Open Scope string_scope.
Local Open Scope list_scope.
Local Open Scope Z_scope.

(** ** Data model *)

(** The user document ([models/User], used through [UserDoc]).  Dates are
    milliseconds since the epoch; [undefined] fields are [None]. *)
Module User.
Record t := mk {
  id : string;
  email : string;
  password : string;
  isVerified : bool;
  verificationToken : option string;
  lastLogin : option Z;
  otp : option string;
  otpExpires : option Z
}.

Definition set_isVerified (b : bool) (u : t) : t :=
  mk (id u) (email u) (password u) b (verificationToken u)
     (lastLogin u) (otp u) (otpExpires u).
Definition set_verificationToken (v : option string) (u : t) : t :=
  mk (id u) (email u) (password u) (isVerified u) v
     (lastLogin u) (otp u) (otpExpires u).
Definition set_lastLogin (d : option Z) (u : t) : t :=
  mk (id u) (email u) (password u) (isVerified u) (verificationToken u)
     d (otp u) (otpExpires u).
Definition set_password (p : string) (u : t) : t :=
  mk (id u) (email u) p (isVerified u) (verificationToken u)
     (lastLogin u) (otp u) (otpExpires u).
Definition set_otp (o : option string) (u : t) : t :=
  mk (id u) (email u) (password u) (isVerified u) (verificationToken u)
     (lastLogin u) o (otpExpires u).
Definition set_otpExpires (d : option Z) (u : t) : t :=
  mk (id u) (email u) (password u) (isVerified u) (verificationToken u)
     (lastLogin u) (otp u) d.
End User.

(** [result.toObject()] after [delete createdUser.password] and
    [delete createdUser.verificationToken]. *)
Record CreatedUser := mkCreatedUser {
  created_id : string;
  created_email : string;
  created_isVerified : bool;
  created_lastLogin : option Z;
  created_otp : option string;
  created_otpExpires : option Z
}.

Definition toObject_sanitized (u : User.t) : CreatedUser :=
  mkCreatedUser (User.id u) (User.email u) (User.isVerified u)
                (User.lastLogin u) (User.otp u) (User.otpExpires u).

Record IAddUserPayload := mkAddUser {
  add_email : string;
  add_password : string
}.

Record ILoginUserPayload := mkLogin {
  login_email : string;
  login_password : string
}.

Record ResetProps := mkReset {
  reset_email : string;
  reset_password : string;
  reset_otp : string
}.

(** ** Exceptions and promises *)

(** What can be thrown: an [Error] of the runtime or of a library, with its
    name, or the project's [APIError].  Only the log line of [logoutUser]
    reads the name. *)
Inductive Exn :=
| JsError (name message : string)
| APIError (message : string) (status : Z).

Definition exn_name (e : Exn) : string :=
  match e with
  | JsError n _ => n
  | APIError _ _ => "APIError"
  end.

(** A settled promise.  A promise is a JavaScript object, whatever it settles
    to, so in a boolean position it counts as true. *)
Inductive Promise (A : Type) :=
| Resolved (a : A)
| Rejected (e : Exn).
Arguments Resolved {A} a.
Arguments Rejected {A} e.

Definition truthy_promise {A} (p : Promise A) : bool := true.

(** JavaScript truthiness of a possibly undefined string and of a possibly
    undefined [Date]. *)
Definition truthy_string (s : option string) : bool :=
  match s with
  | None => false
  | Some s => negb (String.eqb s "")
  end.

Definition truthy_date (d : option Z) : bool :=
  match d with
  | None => false
  | Some _ => true
  end.

(** ** The response envelope ([src/utils/format])

    [Format] is imported from outside the sources at hand; an envelope is
    kept as the call that built it, with the message and the payload the
    service passed. *)

Inductive Data :=
| DataEmpty
| DataUser (u : CreatedUser)
| DataAccessToken (accessToken : string).

Module Format.
Inductive Response :=
| success (data : Data) (message : string)
| notFound (message : string)
| badRequest (message : string)
| unAuthorized (message : string)
| error (code : Z) (message : string).
End Format.

(** ** Effects *)

Inductive MailParams :=
| verification_url (url : string)
| otp_param (otp : string).

Record Mail := mkMail {
  recipients : list string;
  params : MailParams;
  templateId : Z
}.

Inductive SameSite := SameSiteNone | SameSiteStrict.

Record CookieOptions := mkCookieOptions {
  httpOnly : bool;
  secure : bool;
  maxAge : Z;
  sameSite : SameSite
}.

Inductive Level := LogInfo | LogWarn.

Inductive Event :=
| EvLog (lvl : Level) (message : string)
| EvSendEmail (m : Mail)
| EvBlacklistToken (token : string) (expiry : Z)
| EvGenerateTokens (id email : string)
| EvCookie (name value : string) (opts : CookieOptions).

Record TokenPair := mkTokenPair {
  accessToken : string;
  refreshToken : string
}.

Record JwtPayload := mkJwtPayload { exp : Z }.

(** The world a service call runs in: the two stores, the clock reading,
    the position in the random source and the effects performed so far. *)
Record World := mkWorld {
  users : gmap string User.t;
  blacklist : gmap string Z;
  now : Z;
  cursor : nat;
  trace : list Event
}.

Definition set_users (us : gmap string User.t) (w : World) : World :=
  mkWorld us (blacklist w) (now w) (cursor w) (trace w).
Definition set_blacklist (bl : gmap string Z) (w : World) : World :=
  mkWorld (users w) bl (now w) (cursor w) (trace w).
Definition set_cursor (c : nat) (w : World) : World :=
  mkWorld (users w) (blacklist w) (now w) c (trace w).
Definition emit (evs : list Event) (w : World) : World :=
  mkWorld (users w) (blacklist w) (now w) (cursor w) (trace w ++ evs).

(** ** The monad of service calls *)

Inductive Outcome (A : Type) :=
| Return (a : A)
| Throw (e : Exn).
Arguments Return {A} a.
Arguments Throw {A} e.

Definition M (A : Type) : Type := World -> Outcome A * World.

Definition ret {A} (a : A) : M A := fun w => (Return a, w).
Definition throw {A} (e : Exn) : M A := fun w => (Throw e, w).
Definition bind {A B} (m : M A) (k : A -> M B) : M B :=
  fun w =>
    match m w with
    | (Return a, w') => k a w'
    | (Throw e, w') => (Throw e, w')
    end.

Notation "'let*' x ':=' m 'in' k" := (bind m (fun x => k))
  (at level 10, x pattern, m at level 100, k at level 200,
   format "'[v' 'let*'  x  ':='  m  'in' '/' k ']'").
Notation "'exec' m 'in' k" := (bind m (fun _ => k))
  (at level 10, m at level 100, k at level 200,
   format "'[v' 'exec'  m  'in' '/' k ']'").

(** [await p]: the value of a resolved promise, the exception of a rejected
    one. *)
Definition await {A} (p : Promise A) : M A :=
  match p with
  | Resolved a => ret a
  | Rejected e => throw e
  end.

(** [try { m } catch (error) { ... }] as a value: the body's result or the
    exception it threw. *)
Definition try_ {A} (m : M A) : M (A + Exn) :=
  fun w =>
    match m w with
    | (Return a, w') => (Return (inl a), w')
    | (Throw e, w') => (Return (inr e), w')
    end.

Definition get {A} (f : World -> A) : M A := fun w => (Return (f w), w).
Definition modify (f : World -> World) : M unit := fun w => (Return tt, f w).
Definition perform (ev : Event) : M unit := modify (emit [ev]).

(** ** Hexadecimal rendering of random bytes *)

Definition hex_digit (d : N) : ascii :=
  match d with
  | 0%N => "0" | 1%N => "1" | 2%N => "2" | 3%N => "3"
  | 4%N => "4" | 5%N => "5" | 6%N => "6" | 7%N => "7"
  | 8%N => "8" | 9%N => "9" | 10%N => "a" | 11%N => "b"
  | 12%N => "c" | 13%N => "d" | 14%N => "e" | _ => "f"
  end%char.

(** [buffer.toString('hex')]: two lowercase digits per byte. *)
Fixpoint toString_hex (bs : list Byte.byte) : string :=
  match bs with
  | [] => EmptyString
  | b :: rest =>
      String (hex_digit (N.div (Byte.to_N b) 16))
        (String (hex_digit (N.modulo (Byte.to_N b) 16)) (toString_hex rest))
  end.

Definition is_hex_digit (c : ascii) : bool :=
  let n := N_of_ascii c in
  ((48 <=? n) && (n <=? 57) || (97 <=? n) && (n <=? 102))%N.

Fixpoint all_hex (s : string) : bool :=
  match s with
  | EmptyString => true
  | String c rest => is_hex_digit c && all_hex rest
  end.

(** ** The environment of the service

    What the service imports from outside [src/]: configuration, the
    random source, the JWT library, bcrypt, the mailing provider and the
    password method of the user model.  They are parameters of the
    development. *)
Class Env := {
  (** [env.BACKEND_URL] *)
  BACKEND_URL : string;
  (** [messages.bodyInvalid] of [src/utils/responseMessages] *)
  messages_bodyInvalid : string;
  (** [process.env.NODE_ENV === 'production'] *)
  production : bool;
  (** the operating system's random bytes, as an endless supply *)
  entropy : nat -> Byte.byte;
  (** how the promise of [sendEmail] settles for a given message *)
  mailer : Mail -> Promise unit;
  (** [decodeRefreshToken] at a clock reading: the payload, or a rejection
      named [TokenExpiredError] or otherwise *)
  jwt_decode : Z -> string -> Promise JwtPayload;
  (** the signed pair for claims [{id, email}] at a clock reading *)
  jwt_sign : string -> string -> Z -> TokenPair;
  (** [user.comparePassword(candidate)] *)
  password_matches : User.t -> string -> bool;
  (** bcrypt: salt from 16 random bytes at a cost, hash, comparison *)
  bcrypt_salt : Z -> list Byte.byte -> string;
  bcrypt_digest : string -> string -> string;
  bcrypt_verify : string -> string -> bool
}.

Section Service.
Context `{Env}.

Definition logger_log (message : string) : M unit :=
  perform (EvLog LogInfo message).
Definition logger_warn (message : string) : M unit :=
  perform (EvLog LogWarn message).

(** [crypto.randomBytes(n)]: the next [n] bytes of the random source. *)
Definition entropy_bytes (c n : nat) : list Byte.byte :=
  map entropy (seq c n).

Definition randomBytes (n : nat) : M (list Byte.byte) :=
  let* c := get cursor in
  exec modify (set_cursor (c + n)%nat) in
  ret (entropy_bytes c n).

Definition Date_now : M Z := get now.

(** [sendEmail(...)]: the call is made and hands back a promise; whether
    the caller waits for it is the caller's business. *)
Definition sendEmail (m : Mail) : M (Promise unit) :=
  exec perform (EvSendEmail m) in
  ret (mailer m).

Definition decodeRefreshToken (token : string) : M (Promise JwtPayload) :=
  let* t := Date_now in
  ret (jwt_decode t token).

Definition generateTokens (id email : string) : M TokenPair :=
  let* t := Date_now in
  exec perform (EvGenerateTokens id email) in
  ret (jwt_sign id email t).

Definition comparePassword (user : User.t) (candidate : string)
  : Promise bool :=
  Resolved (password_matches user candidate).

Definition res_cookie (name value : string) (opts : CookieOptions) : M unit :=
  perform (EvCookie name value opts).

(** Text of a possibly undefined string inside a template literal. *)
Definition template_text (s : option string) : string :=
  match s with
  | Some s => s
  | None => "undefined"
  end.
End Service.
Arguments entropy_bytes : simpl never.

Module bcrypt.
Section Bcrypt.
Context `{Env}.

Definition genSalt (rounds : Z) : M (Promise string) :=
  let* bytes := randomBytes 16 in
  ret (Resolved (bcrypt_salt rounds bytes)).

Definition hash (data salt : string) : Promise string :=
  Resolved (bcrypt_digest data salt).

(** Without a callback [bcrypt.compare] returns a promise of the
    comparison. *)
Definition compare (data encrypted : string) : Promise bool :=
  Resolved (bcrypt_verify data encrypted).
End Bcrypt.
End bcrypt.

(** ** The stores ([user.dao])

    A user document read from the store is the stored record; [user.save()]
    writes the record back under its email.  The secure and the insecure
    reads differ in which fields the caller may look at, not in which
    document they find. *)
Module userDao.
Section Dao.
Context `{Env}.

(** Modelled from the spec: [user.dao] is not among the sources.  The
    spec's [findByEmailSecure]: the user stored under the email, if
    any. *)
Definition checkUserEmailExist (email : string) : M (option User.t) :=
  get (fun w => users w !! email).

(** Modelled from the spec: [user.dao] is not among the sources.  The
    spec's secure read by email. *)
Definition getUserByEmail (email : string) : M (option User.t) :=
  get (fun w => users w !! email).

(** Modelled from the spec: [user.dao] is not among the sources.  The
    spec's [findByEmailInsecure]: the full user stored under the email,
    if any. *)
Definition getUserByEmailInsecure (email : string) : M (option User.t) :=
  get (fun w => users w !! email).

(** Modelled from the spec: [user.dao] and the user model are not among
    the sources.  A user is created unverified, with a fresh
    verification token and no OTP, and stored under its email.  The
    password is kept as handed over; how the model hashes it shows only
    through [password_matches]. *)
Definition saveUser (props : IAddUserPayload) : M User.t :=
  let* idBytes := randomBytes 12 in
  let* tokenBytes := randomBytes 32 in
  let user :=
    User.mk (toString_hex idBytes) (add_email props) (add_password props)
            false (Some (toString_hex tokenBytes)) None None None in
  exec modify (fun w => set_users (<[add_email props := user]> (users w)) w) in
  ret user.

(** Modelled from the spec: [user.dao] is not among the sources.  The
    spec's [blacklist(token, expiresAt)]: an idempotent insert keyed by
    the token. *)
Definition blacklistToken (token : string) (expiry : Z) : M unit :=
  exec perform (EvBlacklistToken token expiry) in
  modify (fun w => set_blacklist (<[token := expiry]> (blacklist w)) w).

(** Modelled from the spec: the user model is not among the sources.
    The spec's [save(user)]: upsert of the document under its email. *)
Definition save (user : User.t) : M unit :=
  modify (fun w => set_users (<[User.email user := user]> (users w)) w).
End Dao.
End userDao.

(** ** [user.service.ts] *)

Definition refreshCookieOptions `{Env} : CookieOptions :=
  {| httpOnly := true;
     secure := production;
     maxAge := 7 * 24 * 60 * 60 * 1000;
     sameSite := if production then SameSiteNone else SameSiteStrict |}.

Definition verificationMail `{Env} (user : User.t) : Mail :=
  {| recipients := [User.email user];
     params := verification_url
       (BACKEND_URL +:+ "/api/user/verify/"
          +:+ template_text (User.verificationToken user)
          +:+ "?email=" +:+ User.email user);
     templateId := 1 |}.

Section UserService.
Context `{Env}.

(** Add new user in the users collection. *)
Definition addUser (props : IAddUserPayload) : M Format.Response :=
  exec logger_log "[addUser()] is called" in
  let propsClone := props in
  let* userWithEmail := userDao.checkUserEmailExist (add_email props) in
  match userWithEmail with
  | Some _ =>
      throw (APIError "Account already exists with this email." 400)
  | None =>
      let* result := userDao.saveUser propsClone in
      let createdUser := toObject_sanitized result in
      (* not awaited: the promise is dropped *)
      let* _ := sendEmail (verificationMail result) in
      (* [if (result)]: a document is an object, the test holds *)
      ret (Format.success (DataUser createdUser) "User created successfully")
  end.

(** Login an user. *)
Definition loginUser (props : ILoginUserPayload) : M Format.Response :=
  exec logger_log "[loginUser()] is called" in
  let propsClone := props in
  let* found := userDao.getUserByEmailInsecure (login_email propsClone) in
  match found with
  | None => ret (Format.notFound "User not found")
  | Some user =>
      let* isPasswordMatch :=
        await (comparePassword user (login_password propsClone)) in
      let isVerified := User.isVerified user in
      if negb isVerified then
        (* not awaited: the promise is dropped *)
        let* _ := sendEmail (verificationMail user) in
        ret (Format.error 403
               "Email not verified. Verification link sent to your email.")
      else if negb isPasswordMatch then
        ret (Format.unAuthorized "Invalid credentials")
      else
        let* tokens := generateTokens (User.id user) (User.email user) in
        let* today := Date_now in
        let user := User.set_lastLogin (Some today) user in
        exec userDao.save user in
        exec res_cookie "refreshToken" (refreshToken tokens)
               refreshCookieOptions in
        let data := DataAccessToken (accessToken tokens) in
        (* [if (user)]: the test holds on this path *)
        ret (Format.success data "User login successful")
  end.

(** Verify email. *)
Definition verifyEmail (token email : string) : M Format.Response :=
  exec logger_log "[verifyEmail()] is called" in
  let* found := userDao.getUserByEmailInsecure email in
  match found with
  | None => ret (Format.notFound "User not found")
  | Some user =>
      if decide (User.verificationToken user = Some token) then
        let user := User.set_isVerified true user in
        let user := User.set_verificationToken (Some "") user in
        exec userDao.save user in
        ret (Format.success DataEmpty "Email verified successfully")
      else
        ret (Format.badRequest "Invalid verification link")
  end.

(** Refresh access token. *)
Definition refreshAccessToken (user : User.t) (oldToken : string)
  : M Format.Response :=
  exec logger_log "[refreshAccessToken()] is called" in
  let* decoding := decodeRefreshToken oldToken in
  let* payload := await decoding in
  let expiryTimestamp := exp payload in
  exec userDao.blacklistToken oldToken expiryTimestamp in
  let* tokens := generateTokens (User.id user) (User.email user) in
  exec res_cookie "refreshToken" (refreshToken tokens)
         refreshCookieOptions in
  let data := DataAccessToken (accessToken tokens) in
  ret (Format.success data "Access,Refresh token updated successfully").

(** Logout user. *)
Definition logoutUser (refreshToken : string) : M Format.Response :=
  exec logger_log "[logoutUser()] is called" in
  let* tried :=
    try_ (let* decoding := decodeRefreshToken refreshToken in
          let* payload := await decoding in
          ret (exp payload)) in
  match tried with
  | inr error =>
      exec (if String.eqb (exn_name error) "TokenExpiredError"
            then logger_warn "Expired token received!"
            else logger_warn "Invalid token received!") in
      ret (Format.success DataEmpty "User already logged out")
  | inl expiryTimestamp =>
      exec userDao.blacklistToken refreshToken expiryTimestamp in
      ret (Format.success DataEmpty "User logged out successfully")
  end.

(** Forgot password - get the OTP. *)
Definition forgotPassword (email : string) : M Format.Response :=
  exec logger_log "[forgotPassword()] is called" in
  let* found := userDao.getUserByEmail email in
  match found with
  | None => ret (Format.notFound "User not found")
  | Some user =>
      let* bytes := randomBytes 6 in
      let otp := toString_hex bytes in
      let* salting := bcrypt.genSalt 10 in
      let* salt := await salting in
      let* hashedOtp := await (bcrypt.hash otp salt) in
      let user := User.set_otp (Some hashedOtp) user in
      let* today := Date_now in
      let user := User.set_otpExpires (Some (today + 5 * 60 * 1000)) user in
      let* sending :=
        sendEmail {| recipients := [User.email user];
                     params := otp_param otp;
                     templateId := 2 |} in
      exec await sending in
      exec userDao.save user in
      ret (Format.success DataEmpty "OTP sent to your email")
  end.

(** Reset password - update password. *)
Definition resetPassword (props : ResetProps) : M Format.Response :=
  exec logger_log "[forgotPassword()] is called" in
  let* found := userDao.getUserByEmailInsecure (reset_email props) in
  match found with
  | None => ret (Format.notFound "User not found")
  | Some user =>
      let* today := Date_now in
      if negb (truthy_date (User.otpExpires user))
         || negb (truthy_string (User.otp user))
         || (default 0 (User.otpExpires user) <? today)
      then ret (Format.badRequest "OTP expired")
      else
        (* no await: [isOtpMatch] is the promise itself *)
        let isOtpMatch :=
          bcrypt.compare (reset_otp props) (default "" (User.otp user)) in
        if negb (truthy_promise isOtpMatch) then
          ret (Format.badRequest "Invalid OTP")
        else
          let user := User.set_password (reset_password props) user in
          let user := User.set_otp None user in
          let user := User.set_otpExpires None user in
          exec userDao.save user in
          ret (Format.success DataEmpty "Password reset successfully")
  end.
End UserService.

(** ** [user.controller.ts]: the refresh handler *)

Record RefreshRequest := mkRefreshRequest {
  req_user : User.t;
  req_cookies_refreshToken : string;
  req_validationErrors : list string
}.

(** What a handler does with the response object: send an envelope with a
    status, or hand an error to [next]. *)
Inductive Handled :=
| Sent (status : Z) (body : Format.Response)
| Next (e : Exn).

Section UserController.
Context `{Env}.

Definition refreshAccessTokenHandler (req : RefreshRequest)
  : World -> Handled * World :=
  fun w =>
    let body : M Format.Response :=
      let user := req_user req in
      let oldToken := req_cookies_refreshToken req in
      match req_validationErrors req with
      | _ :: _ => throw (APIError messages_bodyInvalid 400)
      | [] => refreshAccessToken user oldToken
      end in
    match body w with
    | (Return result, w') => (Sent 200 result, w')
    | (Throw error, w') => (Next error, w')
    end.
End UserController.

(** ** Sequences of calls *)

(** [runs n m]: the call [m] made [n] times in a row, with the outcome of
    each. *)
Fixpoint runs {A} (n : nat) (m : M A) (w : World) : list (Outcome A) * World :=
  match n with
  | O => ([], w)
  | S n' =>
      let '(o, w') := m w in
      let '(os, w'') := runs n' m w' in
      (o :: os, w'')
  end.

(** Anything that can happen to the world between two calls of interest:
    another call of the service, or the clock moving. *)
Inductive Step :=
| CallAddUser (props : IAddUserPayload)
| CallLoginUser (props : ILoginUserPayload)
| CallVerifyEmail (token email : string)
| CallRefreshAccessToken (user : User.t) (oldToken : string)
| CallLogoutUser (refreshToken : string)
| CallForgotPassword (email : string)
| CallResetPassword (props : ResetProps)
| ClockReads (t : Z).

Definition set_now (t : Z) (w : World) : World :=
  mkWorld (users w) (blacklist w) t (cursor w) (trace w).

Definition step `{Env} (s : Step) (w : World) : World :=
  match s with
  | CallAddUser props => snd (addUser props w)
  | CallLoginUser props => snd (loginUser props w)
  | CallVerifyEmail token email => snd (verifyEmail token email w)
  | CallRefreshAccessToken user oldToken => snd (refreshAccessToken user oldToken w)
  | CallLogoutUser refreshToken => snd (logoutUser refreshToken w)
  | CallForgotPassword email => snd (forgotPassword email w)
  | CallResetPassword props => snd (resetPassword props w)
  | ClockReads t => set_now t w
  end.

Definition steps `{Env} (ss : list Step) (w : World) : World :=
  fold_left (fun w s => step s w) ss w.

(** The users store is keyed by email: every document sits under its own
    email. *)
Definition keyed_by_email (w : World) : Prop :=
  map_Forall (fun k (u : User.t) => User.email u = k) (users w).

(** [stored w email user]: the lookup by [email] finds [user]. *)
Definition stored (w : World) (email : string) (user : User.t) : Prop :=
  users w !! email = Some user /\ User.email user = email.

(** The document [verifyEmail] saves on a match. *)
Definition verified (user : User.t) : User.t :=
  User.set_verificationToken (Some "") (User.set_isVerified true user).

(** What one call can do to the users store: nothing, write back a
    document it read (under the same email, with the verification token
    kept or cleared), or create a document under an email that had none. *)
Inductive users_change (us : gmap string User.t) : gmap string User.t -> Prop :=
| change_none : users_change us us
| change_saved (k : string) (u u' : User.t) :
    us !! k = Some u ->
    User.email u' = User.email u ->
    User.verificationToken u' = User.verificationToken u \/
      User.verificationToken u' = Some "" ->
    users_change us (<[User.email u := u']> us)
| change_created (k : string) (u' : User.t) :
    us !! k = None ->
    User.email u' = k ->
    users_change us (<[k := u']> us).

(** The verification token stored under [email] is the cleared one. *)
Definition token_cleared (us : gmap string User.t) (email : string) : Prop :=
  exists u, us !! email = Some u /\ User.verificationToken u = Some "".

(** The OTP, the salt and the mail of a [forgotPassword] call made in
    world [w]: the OTP renders the next six random bytes, the salt takes
    the sixteen after them. *)
Definition otp_of `{Env} (w : World) : string :=
  toString_hex (entropy_bytes (cursor w) 6).
Definition salt_of `{Env} (w : World) : string :=
  bcrypt_salt 10 (entropy_bytes (cursor w + 6) 16).
Definition otp_mail `{Env} (w : World) (email : string) : Mail :=
  {| recipients := [email]; params := otp_param (otp_of w); templateId := 2 |}.

(** The blacklist calls among some events. *)
Definition blacklistings (evs : list Event) : list (string * Z) :=
  flat_map (fun ev => match ev with
                      | EvBlacklistToken token expiry => [(token, expiry)]
                      | _ => []
                      end) evs.

(** The token pairs issued among some events. *)
Definition issuances (evs : list Event) : list (string * string) :=
  flat_map (fun ev => match ev with
                      | EvGenerateTokens id email => [(id, email)]
                      | _ => []
                      end) evs.

(** ** A small concrete environment, for examples *)

Definition demoEntropy (n : nat) : Byte.byte :=
  match Byte.of_N (N.of_nat n * 37 mod 256) with
  | Some b => b
  | None => Byte.x00
  end.

Definition mailDown : Exn := JsError "Error" "mail provider unreachable".

Definition demoDecode (t : Z) (token : string) : Promise JwtPayload :=
  if String.eqb token "refresh.u1" then
    if 900000 <? t then Rejected (JsError "TokenExpiredError" "jwt expired")
    else Resolved (mkJwtPayload 900000)
  else Rejected (JsError "JsonWebTokenError" "jwt malformed").

Definition demoEnvWith (m : Mail -> Promise unit) : Env :=
  {| BACKEND_URL := "https://api.example.org";
     messages_bodyInvalid := "Invalid request body";
     production := false;
     entropy := demoEntropy;
     mailer := m;
     jwt_decode := demoDecode;
     jwt_sign := fun id email t => mkTokenPair ("access." +:+ id) ("refresh." +:+ id);
     password_matches := fun u candidate => String.eqb (User.password u) candidate;
     bcrypt_salt := fun rounds bytes => "$2b$" +:+ toString_hex bytes;
     bcrypt_digest := fun data salt => "bcrypt(" +:+ data +:+ ")";
     bcrypt_verify := fun data encrypted =>
                        String.eqb encrypted ("bcrypt(" +:+ data +:+ ")") |}.

Definition demoEnv : Env := demoEnvWith (fun _ => Resolved tt).
Definition mailDownEnv : Env := demoEnvWith (fun _ => Rejected mailDown).

(** An environment with another mail provider and everything else alike. *)
Definition with_mailer (E : Env) (m : Mail -> Promise unit) : Env :=
  {| BACKEND_URL := @BACKEND_URL E;
     messages_bodyInvalid := @messages_bodyInvalid E;
     production := @production E;
     entropy := @entropy E;
     mailer := m;
     jwt_decode := @jwt_decode E;
     jwt_sign := @jwt_sign E;
     password_matches := @password_matches E;
     bcrypt_salt := @bcrypt_salt E;
     bcrypt_digest := @bcrypt_digest E;
     bcrypt_verify := @bcrypt_verify E |}.

Definition alice : User.t :=
  User.mk "u1" "a@x.com" "P@ssw0rd" false (Some "c0ffee") None None None.

Definition aliceVerified : User.t := verified alice.

(** Alice after asking for an OTP: the hash of [4a6f9c01d2e3], good until
    clock reading 300000. *)
Definition aliceWithOtp : User.t :=
  User.set_otpExpires (Some 300000)
    (User.set_otp (Some "bcrypt(4a6f9c01d2e3)") aliceVerified).

Definition worldOf (u : User.t) (t : Z) : World :=
  mkWorld {[ User.email u := u ]} ∅ t 0 [].

Definition emptyWorld : World := mkWorld ∅ ∅ 1000 0 [].

(** ** [user.controller.ts]: the other handlers

    A handler reads its input off the request, checks the validation
    result, calls the service and answers through [res] or [next].  It is
    embedded as the list of calls it makes on [res] and [next], in order,
    with the world the service left. *)

(** What the handlers import besides the service. *)
Class ControllerEnv := {
  (** [env.FRONTEND_LOGIN_URL] *)
  FRONTEND_LOGIN_URL : string;
  (** [result.code] of an envelope built by [Format] *)
  Format_code : Format.Response -> Z;
  (** [error instanceof MongoError] *)
  isMongoError : Exn -> bool
}.

(** What is given to [res.json]: an envelope of the service, a bare
    [{ message }] object, or [handleMongoError(error)]. *)
Inductive Body :=
| JsonEnvelope (result : Format.Response)
| JsonMessage (message : string)
| JsonHandledMongoError (error : Exn).

Inductive ResCall :=
| ResJson (status : Z) (body : Body)
| ResClearCookie (name : string)
| ResRedirect (url : string)
| NextError (error : Exn).

(** A request as a handler sees it: the part it reads (body, params and
    query, or cookie) and the errors of [validationResult(req)]. *)
Record Req (A : Type) := mkReq {
  req_input : A;
  req_errors : list string
}.
Arguments mkReq {A} _ _.
Arguments req_input {A} _.
Arguments req_errors {A} _.

Definition Handler : Type := World -> list ResCall * World.

(** [try { body } catch (error) { onError }] around a handler body that
    ends with its answer. *)
Definition catching (body : M (list ResCall)) (onError : Exn -> list ResCall)
  : Handler :=
  fun w =>
    match body w with
    | (Return calls, w') => (calls, w')
    | (Throw error, w') => (onError error, w')
    end.

Section Handlers.
Context `{Env} `{ControllerEnv}.

(** [if (!errors.isEmpty()) throw new APIError(...)] *)
Definition validate (errors : list string) : M unit :=
  match errors with
  | _ :: _ => throw (APIError messages_bodyInvalid 400)
  | [] => ret tt
  end.

Definition respond (result : Format.Response) : list ResCall :=
  [ResJson (Format_code result) (JsonEnvelope result)].

(** User signup controller. *)
Definition userSignupHandler (req : Req IAddUserPayload) : Handler :=
  catching
    (let props := req_input req in
     exec validate (req_errors req) in
     let* result := addUser props in
     ret (respond result))
    (fun error =>
       if isMongoError error then
         [ResJson 400 (JsonHandledMongoError error)]
       else
         match error with
         | APIError _ _ => [NextError error]
         | _ => [ResJson 500 (JsonMessage "An internal server error occurred.")]
         end).

(** User login controller. *)
Definition userLoginHandler (req : Req ILoginUserPayload) : Handler :=
  catching
    (let props := req_input req in
     exec validate (req_errors req) in
     let* result := loginUser props in
     ret (respond result))
    (fun error => [NextError error]).

(** Verify email controller: the input is [req.params.token] and
    [req.query.email]. *)
Definition verifyEmailHandler (req : Req (string * option string)) : Handler :=
  catching
    (exec validate (req_errors req) in
     let token := fst (req_input req) in
     let email := snd (req_input req) in
     if negb (truthy_string email) then
       throw (APIError "Invalid verification link" 400)
     else
       (* the envelope of the service is not looked at *)
       let* _ := verifyEmail token (default "" email) in
       ret [ResRedirect FRONTEND_LOGIN_URL])
    (fun error => [NextError error]).

(** User logout controller: the input is [req.cookies.refreshToken]. *)
Definition userLogoutHandler (req : Req (option string)) : Handler :=
  catching
    (let token := req_input req in
     exec validate (req_errors req) in
     if negb (truthy_string token) then
       ret [ResJson 200 (JsonMessage "User already logged out")]
     else
       let* result := logoutUser (default "" token) in
       ret (ResClearCookie "refreshToken" :: respond result))
    (fun error => [NextError error]).

(** Forgot password controller: the input is [req.body.email]. *)
Definition forgotPasswordHandler (req : Req string) : Handler :=
  catching
    (let email := req_input req in
     exec validate (req_errors req) in
     let* result := forgotPassword email in
     ret (respond result))
    (fun error => [NextError error]).

(** Reset password controller. *)
Definition resetPasswordHandler (req : Req ResetProps) : Handler :=
  catching
    (let props := req_input req in
     exec validate (req_errors req) in
     let* result := resetPassword props in
     ret (respond result))
    (fun error => [NextError error]).
End Handlers.

(** The calls that end a request: a response body, a redirect, or the
    error passed on. *)
Definition is_answer (c : ResCall) : bool :=
  match c with
  | ResClearCookie _ => false
  | _ => true
  end.

(** ** Reading a run *)

(** The events a run added: those of [w'] past the ones [w] had. *)
Definition since (w w' : World) : list Event :=
  drop (length (trace w)) (trace w').

(** The cookies set among some events. *)
Definition cookies_set (evs : list Event) : list (string * string) :=
  flat_map (fun ev => match ev with
                      | EvCookie name value _ => [(name, value)]
                      | _ => []
                      end) evs.

(** The mails handed to the notifier among some events. *)
Definition mails_sent (evs : list Event) : list Mail :=
  flat_map (fun ev => match ev with
                      | EvSendEmail m => [m]
                      | _ => []
                      end) evs.

Definition is_reset (s : Step) : bool :=
  match s with
  | CallResetPassword _ => true
  | _ => false
  end.

Definition is_revocation (s : Step) : bool :=
  match s with
  | CallRefreshAccessToken _ _ | CallLogoutUser _ => true
  | _ => false
  end.

(** What a call may change in a document it writes back: never the id or
    the email, never a verified account back to unverified, and the
    password only in a reset. *)
Definition keeps (s : Step) (u u' : User.t) : Prop :=
  User.id u' = User.id u
  /\ User.email u' = User.email u
  /\ (User.isVerified u = true -> User.isVerified u' = true)
  /\ (is_reset s = false -> User.password u' = User.password u).

(** The users store after a call, against the store before it: the same,
    or one document written back in place, or one document created under
    an email that had none. *)
Inductive store_step (R : User.t -> User.t -> Prop) (us : gmap string User.t)
  : gmap string User.t -> Prop :=
| store_same : store_step R us us
| store_saved (k : string) (u u' : User.t) :
    us !! k = Some u ->
    R u u' ->
    store_step R us (<[User.email u := u']> us)
| store_created (k : string) (u' : User.t) :
    us !! k = None ->
    User.email u' = k ->
    store_step R us (<[k := u']> us).

(** The shape the service gives a user document: the two OTP fields are
    set together or absent together, and a verified account has its
    verification token cleared. *)
Definition consistent (u : User.t) : Prop :=
  (User.otp u = None <-> User.otpExpires u = None)
  /\ (User.isVerified u = true -> User.verificationToken u = Some "").

Definition demoControllerEnv : ControllerEnv :=
  {| FRONTEND_LOGIN_URL := "https://app.example.org/login";
     Format_code := fun result =>
       match result with
       | Format.success _ _ => 200
       | Format.notFound _ => 404
       | Format.badRequest _ => 400
       | Format.unAuthorized _ => 401
       | Format.error code _ => code
       end;
     isMongoError := fun error =>
       match error with
       | JsError name _ => String.eqb name "MongoError"
       | APIError _ _ => false
       end |}.

Definition aliceLogin (password : string) : ILoginUserPayload :=
  mkLogin "a@x.com" password.

(** A day of Alice's: a failed login, a login, a forgotten password, a
    logout. *)
Definition aliceDay : list Step :=
  [CallLoginUser (aliceLogin "guess"); ClockReads 2000;
   CallLoginUser (aliceLogin "P@ssw0rd"); CallForgotPassword "a@x.com";
   CallVerifyEmail "" "a@x.com"; CallLogoutUser "refresh.u1"].

(** ** Tactics: running the service by hand *)

Ltac unfold_service :=
  unfold addUser, loginUser, verifyEmail, refreshAccessToken, logoutUser,
    forgotPassword, resetPassword,
    userDao.checkUserEmailExist, userDao.getUserByEmail,
    userDao.getUserByEmailInsecure, userDao.saveUser,
    userDao.blacklistToken, userDao.save,
    sendEmail, decodeRefreshToken, generateTokens, comparePassword,
    res_cookie, randomBytes, Date_now, logger_log, logger_warn,
    bcrypt.genSalt, bcrypt.hash, bcrypt.compare,
    try_, await, perform, modify, get, bind, ret, throw.

Ltac run_service := unfold_service; cbn.

Ltac run_handler :=
  unfold userSignupHandler, userLoginHandler, verifyEmailHandler,
    userLogoutHandler, forgotPasswordHandler, resetPasswordHandler,
    catching, respond, validate;
  run_service.

(** Into a handler whose request passed validation. *)
Ltac enter_handler :=
  unfold userSignupHandler, userLoginHandler, verifyEmailHandler,
    userLogoutHandler, forgotPasswordHandler, resetPasswordHandler;
  cbn [req_input req_errors fst snd];
  match goal with
  | |- context [catching (bind (validate []) ?k) ?h ?w] =>
      change (catching (bind (validate []) k) h w) with (catching (k tt) h w)
  end;
  cbv beta.

(** The events a run added, read off the traces. *)
Ltac since_events :=
  unfold since, emit, set_users, set_blacklist, set_cursor, set_now; cbn;
  rewrite <- ?app_assoc; rewrite ?drop_app_length, ?drop_all; cbn.

(** Case analysis on what the code branches on, innermost test first. *)
Ltac split_cases :=
  repeat match goal with
         | |- context [match ?x with _ => _ end] =>
             lazymatch x with
             | context [match _ with _ => _ end] => fail
             | _ => destruct x eqn:?; cbn
             end
         end.

(** * Properties *)

(** ** Worlds and events *)

Lemma emit_emit (evs1 evs2 : list Event) (w : World) :
  emit evs2 (emit evs1 w) = emit (evs1 ++ evs2) w.
Proof. unfold emit; cbn. now rewrite <- app_assoc. Qed.

(** ** Hexadecimal rendering *)

Lemma toString_hex_length (bs : list Byte.byte) :
  String.length (toString_hex bs) = (2 * length bs)%nat.
Proof.
  induction bs as [|b bs IH]; cbn [toString_hex String.length length].
  - reflexivity.
  - rewrite IH. lia.
Qed.

Lemma hex_digit_is_hex (d : N) : is_hex_digit (hex_digit d) = true.
Proof.
  destruct d as [|p]; [reflexivity|].
  do 5 (try (destruct p as [p|p|]; try reflexivity)).
Qed.

Lemma toString_hex_all_hex (bs : list Byte.byte) :
  all_hex (toString_hex bs) = true.
Proof.
  induction bs as [|b bs IH]; cbn [toString_hex all_hex].
  - reflexivity.
  - now rewrite !hex_digit_is_hex, IH.
Qed.

Lemma toString_hex_nonempty (bs : list Byte.byte) :
  bs <> [] -> toString_hex bs <> "".
Proof. destruct bs; [congruence | discriminate]. Qed.

(** ** Email verification: the three answers *)

Section VerifyEmail.
Context `{Env}.

Lemma verifyEmail_match (w : World) (user : User.t) (token email : string) :
  users w !! email = Some user ->
  User.verificationToken user = Some token ->
  verifyEmail token email w =
    (Return (Format.success DataEmpty "Email verified successfully"),
     set_users (<[User.email user := verified user]> (users w))
       (emit [EvLog LogInfo "[verifyEmail()] is called"] w)).
Proof.
  intros Hu Ht. run_service. rewrite Hu. cbn.
  destruct (decide _) as [_|Hne]; [reflexivity | contradiction].
Qed.

Lemma verifyEmail_mismatch (w : World) (user : User.t) (token email : string) :
  users w !! email = Some user ->
  User.verificationToken user <> Some token ->
  verifyEmail token email w =
    (Return (Format.badRequest "Invalid verification link"),
     emit [EvLog LogInfo "[verifyEmail()] is called"] w).
Proof.
  intros Hu Ht. run_service. rewrite Hu. cbn.
  destruct (decide _) as [Heq|_]; [contradiction | reflexivity].
Qed.

Lemma verifyEmail_unknown (w : World) (token email : string) :
  users w !! email = None ->
  verifyEmail token email w =
    (Return (Format.notFound "User not found"),
     emit [EvLog LogInfo "[verifyEmail()] is called"] w).
Proof. intros Hu. run_service. now rewrite Hu. Qed.
End VerifyEmail.

(** ** What calls do to the users store *)

Section UsersStore.
Context `{Env}.

Lemma step_users_change (s : Step) (w : World) :
  users_change (users w) (users (step s w)).
Proof.
  destruct s; unfold step; run_service; split_cases;
    try apply change_none.
  - eapply change_created; [eassumption | reflexivity].
  - eapply change_saved; [eassumption | reflexivity | now left].
  - eapply change_saved; [eassumption | reflexivity | now right].
  - eapply change_saved; [eassumption | reflexivity | now left].
  - eapply change_saved; [eassumption | reflexivity | now left].
Qed.
End UsersStore.

Section Invariants.
Context `{Env}.

Lemma users_change_registered (us us' : gmap string User.t) (email : string) :
  users_change us us' -> is_Some (us !! email) -> is_Some (us' !! email).
Proof.
  intros Hc Hs. destruct Hc as [|k u u' Hk He Ht|k u' Hk He]; [assumption| |].
  - rewrite lookup_insert_is_Some.
    destruct (decide (User.email u = email)); tauto.
  - rewrite lookup_insert_is_Some.
    destruct (decide (k = email)); tauto.
Qed.

Lemma users_change_keyed (us us' : gmap string User.t) :
  users_change us us' ->
  map_Forall (fun k (u : User.t) => User.email u = k) us ->
  map_Forall (fun k (u : User.t) => User.email u = k) us'.
Proof.
  intros Hc Hkey. destruct Hc as [|k u u' Hk He Ht|k u' Hk He]; [assumption| |].
  - apply map_Forall_insert_2; [assumption|assumption].
  - apply map_Forall_insert_2; assumption.
Qed.

Lemma users_change_cleared (us us' : gmap string User.t) (email : string) :
  users_change us us' ->
  map_Forall (fun k (u : User.t) => User.email u = k) us ->
  token_cleared us email -> token_cleared us' email.
Proof.
  intros Hc Hkey (v & Hv & Htok).
  destruct Hc as [|k u u' Hk He Ht|k u' Hk He].
  - now exists v.
  - pose proof (Hkey _ _ Hk) as Hku. rewrite Hku.
    destruct (decide (k = email)) as [->|Hne].
    + exists u'. rewrite lookup_insert_eq. split; [reflexivity|].
      assert (u = v) as -> by congruence.
      destruct Ht as [Ht|Ht]; congruence.
    + exists v. now rewrite lookup_insert_ne.
  - exists v. rewrite lookup_insert_ne; [easy|]. congruence.
Qed.

Lemma steps_cons (s : Step) (ss : list Step) (w : World) :
  steps (s :: ss) w = steps ss (step s w).
Proof. reflexivity. Qed.

Lemma steps_registered (ss : list Step) (w : World) (email : string) :
  is_Some (users w !! email) -> is_Some (users (steps ss w) !! email).
Proof.
  revert w. induction ss as [|s ss IH]; intros w Hs; [assumption|].
  rewrite steps_cons. apply IH.
  eapply users_change_registered; [apply step_users_change | assumption].
Qed.

Lemma steps_keyed (ss : list Step) (w : World) :
  keyed_by_email w -> keyed_by_email (steps ss w).
Proof.
  revert w. induction ss as [|s ss IH]; intros w Hk; [assumption|].
  rewrite steps_cons. apply IH. unfold keyed_by_email in *.
  eapply users_change_keyed; [apply step_users_change | assumption].
Qed.

Lemma steps_cleared (ss : list Step) (w : World) (email : string) :
  keyed_by_email w ->
  token_cleared (users w) email ->
  token_cleared (users (steps ss w)) email.
Proof.
  revert w. induction ss as [|s ss IH]; intros w Hk Hc; [assumption|].
  rewrite steps_cons. apply IH.
  - apply (steps_keyed [s]), Hk.
  - eapply users_change_cleared; [apply step_users_change | exact Hk | exact Hc].
Qed.
End Invariants.

(** ** Signup *)

Section Signup.
Context `{Env}.

Lemma addUser_registered (w : World) (props : IAddUserPayload) :
  is_Some (users w !! add_email props) ->
  addUser props w =
    (Throw (APIError "Account already exists with this email." 400),
     emit [EvLog LogInfo "[addUser()] is called"] w).
Proof. intros [u Hu]. run_service. now rewrite Hu. Qed.

Lemma addUser_fresh (w : World) (props : IAddUserPayload) :
  users w !! add_email props = None ->
  exists user w1,
    addUser props w =
      (Return (Format.success (DataUser (toObject_sanitized user))
                 "User created successfully"), w1)
    /\ User.email user = add_email props
    /\ User.isVerified user = false
    /\ users w1 = <[add_email props := user]> (users w)
    /\ trace w1 = trace w ++ [EvLog LogInfo "[addUser()] is called";
                              EvSendEmail (verificationMail user)]
    /\ exists T, User.verificationToken user = Some T /\ T <> "".
Proof.
  intros Hu. run_service. rewrite Hu. cbn.
  eexists (User.mk _ _ _ _ _ _ _ _), _. split; [reflexivity|]. cbn.
  repeat split.
  - now rewrite <- app_assoc.
  - eexists. split; [reflexivity|]. now apply toString_hex_nonempty.
Qed.

(** C4. For an email [E] with no user, a first [addUser] with [E] succeeds
    and stores a user under [E]; a second [addUser] with [E], right away
    or after any further calls, throws the [APIError] "Account already
    exists with this email." with status 400. *)
Theorem addUser_twice_already_exists (w : World) (first second : IAddUserPayload) :
  users w !! add_email first = None ->
  add_email second = add_email first ->
  exists created w1,
    addUser first w =
      (Return (Format.success (DataUser created) "User created successfully"), w1)
    /\ created_email created = add_email first
    /\ is_Some (users w1 !! add_email first)
    /\ addUser second w1 =
         (Throw (APIError "Account already exists with this email." 400),
          emit [EvLog LogInfo "[addUser()] is called"] w1)
    /\ forall later : list Step,
         fst (addUser second (steps later w1)) =
           Throw (APIError "Account already exists with this email." 400).
Proof.
  intros Hfree Hsame.
  destruct (addUser_fresh w first Hfree) as (user & w1 & Hrun & Hemail & _ & Hus & _ & _).
  assert (Hreg : is_Some (users w1 !! add_email second)).
  { rewrite Hsame, Hus, lookup_insert_eq. now eexists. }
  exists (toObject_sanitized user), w1. repeat split.
  - exact Hrun.
  - exact Hemail.
  - now rewrite <- Hsame.
  - now apply addUser_registered.
  - intros later. rewrite addUser_registered; [reflexivity|].
    now apply steps_registered.
Qed.
End Signup.

(** ** Login *)

Section Login.
Context `{Env}.

(** C2. For an unverified user, [loginUser] answers with the 403 error
    "Email not verified. Verification link sent to your email." whatever
    the password and whatever the password comparison says: the
    verification test is taken before the password test.  Nothing is
    stored; the verification mail is sent again. *)
Theorem loginUser_unverified_forbidden (w : World) (user : User.t)
    (props : ILoginUserPayload) :
  users w !! login_email props = Some user ->
  User.isVerified user = false ->
  loginUser props w =
    (Return (Format.error 403
               "Email not verified. Verification link sent to your email."),
     emit [EvLog LogInfo "[loginUser()] is called";
           EvSendEmail (verificationMail user)] w).
Proof.
  intros Hu Hv. run_service. rewrite Hu. cbn. rewrite Hv. cbn.
  now rewrite emit_emit.
Qed.
End Login.

(** ** Email verification *)

Section VerifyEmailOnce.
Context `{Env}.

Lemma verifyEmail_cleared_rejects (w : World) (T email : string) :
  token_cleared (users w) email ->
  T <> "" ->
  verifyEmail T email w =
    (Return (Format.badRequest "Invalid verification link"),
     emit [EvLog LogInfo "[verifyEmail()] is called"] w).
Proof.
  intros (u & Hu & Htok) HT. eapply verifyEmail_mismatch; [exact Hu|].
  rewrite Htok. congruence.
Qed.

Lemma verifyEmail_replays (n : nat) (w : World) (T email : string) :
  token_cleared (users w) email ->
  T <> "" ->
  fst (runs n (verifyEmail T email) w) =
    repeat (Return (Format.badRequest "Invalid verification link")) n.
Proof.
  intros Hc HT. revert w Hc. induction n as [|n IH]; intros w Hc; [reflexivity|].
  cbn [runs repeat]. rewrite verifyEmail_cleared_rejects by assumption.
  specialize (IH (emit [EvLog LogInfo "[verifyEmail()] is called"] w) Hc).
  destruct (runs n _ _) as [os w'']. cbn in *. now rewrite IH.
Qed.

Lemma verifyEmail_clears (w : World) (user : User.t) (T email : string) :
  keyed_by_email w ->
  users w !! email = Some user ->
  User.verificationToken user = Some T ->
  exists w1,
    verifyEmail T email w =
      (Return (Format.success DataEmpty "Email verified successfully"), w1)
    /\ users w1 = <[email := verified user]> (users w)
    /\ keyed_by_email w1
    /\ token_cleared (users w1) email.
Proof.
  intros Hk Hu Ht. pose proof (Hk _ _ Hu) as He. cbn in He.
  eexists. split; [apply (verifyEmail_match w user T email Hu Ht)|].
  cbn. rewrite He.
  repeat split.
  - unfold keyed_by_email. cbn. apply map_Forall_insert_2; [exact He | exact Hk].
  - exists (verified user). now rewrite lookup_insert_eq.
Qed.

(** C3. For a user stored with verification token [T] (a token, so not
    the empty string), [verifyEmail T email] succeeds: the stored user
    becomes verified, with the token cleared.  After that the same call
    never succeeds again: made [n] times in a row, or after any further
    calls, it answers "Invalid verification link". *)
Theorem verifyEmail_succeeds_once (w : World) (user : User.t) (T email : string) :
  keyed_by_email w ->
  users w !! email = Some user ->
  User.verificationToken user = Some T ->
  T <> "" ->
  exists w1,
    verifyEmail T email w =
      (Return (Format.success DataEmpty "Email verified successfully"), w1)
    /\ users w1 = <[email := verified user]> (users w)
    /\ User.isVerified (verified user) = true
    /\ User.verificationToken (verified user) = Some ""
    /\ (forall n : nat,
          fst (runs n (verifyEmail T email) w1) =
            repeat (Return (Format.badRequest "Invalid verification link")) n)
    /\ (forall later : list Step,
          fst (verifyEmail T email (steps later w1)) =
            Return (Format.badRequest "Invalid verification link")).
Proof.
  intros Hk Hu Ht HT.
  destruct (verifyEmail_clears w user T email Hk Hu Ht) as (w1 & Hrun & Hus & Hk1 & Hc1).
  exists w1. repeat split; try assumption.
  - intros n. now apply verifyEmail_replays.
  - intros later. rewrite verifyEmail_cleared_rejects; [reflexivity| |assumption].
    now apply steps_cleared.
Qed.

(** C9. Once a user's token has been cleared by a successful
    [verifyEmail], the call [verifyEmail "" email] matches the cleared
    token and succeeds again, right away or after any further calls. *)
Theorem verifyEmail_empty_token_succeeds_again (w : World) (user : User.t)
    (T email : string) :
  keyed_by_email w ->
  users w !! email = Some user ->
  User.verificationToken user = Some T ->
  exists w1,
    verifyEmail T email w =
      (Return (Format.success DataEmpty "Email verified successfully"), w1)
    /\ users w1 !! email = Some (verified user)
    /\ User.verificationToken (verified user) = Some ""
    /\ forall later : list Step,
         fst (verifyEmail "" email (steps later w1)) =
           Return (Format.success DataEmpty "Email verified successfully").
Proof.
  intros Hk Hu Ht.
  destruct (verifyEmail_clears w user T email Hk Hu Ht) as (w1 & Hrun & Hus & Hk1 & Hc1).
  exists w1. repeat split; try assumption.
  - now rewrite Hus, lookup_insert_eq.
  - intros later.
    destruct (steps_cleared later w1 email Hk1 Hc1) as (u & Hlook & Htok).
    now rewrite (verifyEmail_match _ u "" email Hlook Htok).
Qed.
End VerifyEmailOnce.

(** ** Refresh and logout *)

Section Tokens.
Context `{Env}.

(** C5. [logoutUser] always answers with success.  When decoding the
    refresh token is rejected (expired or otherwise invalid) it answers
    "User already logged out", calls the blacklist not at all and leaves
    both stores as they were.  When decoding resolves it answers "User
    logged out successfully" after exactly one blacklist call, which
    records the token with the [exp] of its payload. *)
Theorem logoutUser_blacklists_decodable_tokens (w : World) (token : string) :
  (forall error : Exn,
      jwt_decode (now w) token = Rejected error ->
      exists w',
        logoutUser token w =
          (Return (Format.success DataEmpty "User already logged out"), w')
        /\ blacklist w' = blacklist w
        /\ users w' = users w
        /\ exists logged,
             trace w' = trace w ++ logged /\ blacklistings logged = [])
  /\
  (forall payload : JwtPayload,
      jwt_decode (now w) token = Resolved payload ->
      exists w',
        logoutUser token w =
          (Return (Format.success DataEmpty "User logged out successfully"), w')
        /\ blacklist w' = <[token := exp payload]> (blacklist w)
        /\ users w' = users w
        /\ exists logged,
             trace w' = trace w ++ logged
             /\ blacklistings logged = [(token, exp payload)]).
Proof.
  split.
  - intros error Hd. run_service. rewrite Hd. cbn.
    destruct (String.eqb _ _); cbn; eexists; (split; [reflexivity|]); cbn;
      repeat split; eexists; rewrite <- app_assoc; split; reflexivity.
  - intros payload Hd. run_service. rewrite Hd. cbn.
    eexists; (split; [reflexivity|]); cbn.
    repeat split; eexists; rewrite <- app_assoc; split; reflexivity.
Qed.

Lemma refreshAccessToken_resolved (w : World) (user : User.t)
    (oldToken : string) (payload : JwtPayload) :
  jwt_decode (now w) oldToken = Resolved payload ->
  refreshAccessToken user oldToken w =
    (Return (Format.success
               (DataAccessToken
                  (accessToken (jwt_sign (User.id user) (User.email user) (now w))))
               "Access,Refresh token updated successfully"),
     emit [EvGenerateTokens (User.id user) (User.email user);
           EvCookie "refreshToken"
             (refreshToken (jwt_sign (User.id user) (User.email user) (now w)))
             refreshCookieOptions]
       (set_blacklist (<[oldToken := exp payload]> (blacklist w))
          (emit [EvLog LogInfo "[refreshAccessToken()] is called";
                 EvBlacklistToken oldToken (exp payload)] w))).
Proof.
  intros Hd. run_service. rewrite Hd. cbn. unfold emit, set_blacklist; cbn.
  now rewrite <- !app_assoc.
Qed.

Lemma refreshAccessToken_rejected (w : World) (user : User.t)
    (oldToken : string) (error : Exn) :
  jwt_decode (now w) oldToken = Rejected error ->
  refreshAccessToken user oldToken w =
    (Throw error, emit [EvLog LogInfo "[refreshAccessToken()] is called"] w).
Proof. intros Hd. run_service. now rewrite Hd. Qed.

(** C6. Whenever [refreshAccessToken] returns, the old refresh token was
    decoded, it sits in the blacklist with the [exp] of its payload, and
    among the effects of the call the blacklist call comes first, before
    the new pair is issued and the cookie is set.  And it does return
    whenever the old token decodes. *)
Theorem refreshAccessToken_blacklists_before_issuing (w : World)
    (user : User.t) (oldToken : string) :
  (forall (result : Format.Response) (w' : World),
      refreshAccessToken user oldToken w = (Return result, w') ->
      exists payload tokens,
        jwt_decode (now w) oldToken = Resolved payload
        /\ blacklist w' !! oldToken = Some (exp payload)
        /\ trace w' =
             trace w ++ [EvLog LogInfo "[refreshAccessToken()] is called";
                         EvBlacklistToken oldToken (exp payload);
                         EvGenerateTokens (User.id user) (User.email user);
                         EvCookie "refreshToken" (refreshToken tokens)
                           refreshCookieOptions]
        /\ result = Format.success (DataAccessToken (accessToken tokens))
                      "Access,Refresh token updated successfully")
  /\ (forall payload : JwtPayload,
        jwt_decode (now w) oldToken = Resolved payload ->
        exists result w',
          refreshAccessToken user oldToken w = (Return result, w')).
Proof.
  split.
  - intros result w' Hrun.
    destruct (jwt_decode (now w) oldToken) as [payload|error] eqn:Hd.
    + rewrite (refreshAccessToken_resolved _ _ _ _ Hd) in Hrun.
      injection Hrun as <- <-.
      exists payload, (jwt_sign (User.id user) (User.email user) (now w)).
      split; [reflexivity|]. cbn. split; [apply lookup_insert_eq|].
      split; [|reflexivity]. now rewrite <- app_assoc.
    + rewrite (refreshAccessToken_rejected _ _ _ _ Hd) in Hrun. discriminate.
  - intros payload Hd. rewrite (refreshAccessToken_resolved _ _ _ _ Hd). eauto.
Qed.

(** C10. When decoding the old refresh token is rejected,
    [refreshAccessToken] throws that rejection: no envelope is returned,
    nothing is blacklisted, no pair is issued, no cookie is set, and both
    stores stay as they were.  The handler sends nothing and passes the
    error to [next]; with no validation errors it is the decode error. *)
Theorem refreshAccessToken_decode_failure_propagates (w : World)
    (req : RefreshRequest) (error : Exn) :
  jwt_decode (now w) (req_cookies_refreshToken req) = Rejected error ->
  let w' := emit [EvLog LogInfo "[refreshAccessToken()] is called"] w in
  refreshAccessToken (req_user req) (req_cookies_refreshToken req) w =
    (Throw error, w')
  /\ blacklist w' = blacklist w
  /\ users w' = users w
  /\ blacklistings [EvLog LogInfo "[refreshAccessToken()] is called"] = []
  /\ issuances [EvLog LogInfo "[refreshAccessToken()] is called"] = []
  /\ (exists passed,
        fst (refreshAccessTokenHandler req w) = Next passed)
  /\ (req_validationErrors req = [] ->
      refreshAccessTokenHandler req w = (Next error, w')).
Proof.
  intros Hd w'.
  pose proof (refreshAccessToken_rejected w (req_user req) _ _ Hd) as Hrun.
  repeat split; try assumption.
  - unfold refreshAccessTokenHandler.
    destruct (req_validationErrors req); [rewrite Hrun|]; cbn; eauto.
  - intros Hv. unfold refreshAccessTokenHandler. now rewrite Hv, Hrun.
Qed.
End Tokens.

(** ** Forgotten password *)

Section ForgotPassword.
Context `{Env}.

Lemma forgotPassword_unknown (w : World) (email : string) :
  users w !! email = None ->
  forgotPassword email w =
    (Return (Format.notFound "User not found"),
     emit [EvLog LogInfo "[forgotPassword()] is called"] w).
Proof. intros Hu. run_service. now rewrite Hu. Qed.

Lemma forgotPassword_sent (w : World) (email : string) (user : User.t) :
  users w !! email = Some user ->
  mailer (otp_mail w (User.email user)) = Resolved tt ->
  forgotPassword email w =
    (Return (Format.success DataEmpty "OTP sent to your email"),
     set_users
       (<[User.email user :=
            User.set_otpExpires (Some (now w + 5 * 60 * 1000))
              (User.set_otp (Some (bcrypt_digest (otp_of w) (salt_of w))) user)]>
          (users w))
       (emit [EvLog LogInfo "[forgotPassword()] is called";
              EvSendEmail (otp_mail w (User.email user))]
          (set_cursor (cursor w + 22) w))).
Proof.
  intros Hu Hm. unfold otp_mail, otp_of, salt_of in *. run_service.
  rewrite Hu. cbn. rewrite Hm. cbn.
  unfold set_users, emit, set_cursor; cbn. rewrite <- app_assoc. cbn.
  now replace (cursor w + 6 + 16)%nat with (cursor w + 22)%nat by lia.
Qed.

Lemma forgotPassword_send_rejected (w : World) (email : string)
    (user : User.t) (error : Exn) :
  users w !! email = Some user ->
  mailer (otp_mail w (User.email user)) = Rejected error ->
  forgotPassword email w =
    (Throw error,
     emit [EvLog LogInfo "[forgotPassword()] is called";
           EvSendEmail (otp_mail w (User.email user))]
       (set_cursor (cursor w + 22) w)).
Proof.
  intros Hu Hm. unfold otp_mail, otp_of, salt_of in *. run_service.
  rewrite Hu. cbn. rewrite Hm. cbn.
  unfold emit, set_cursor; cbn. rewrite <- app_assoc. cbn.
  now replace (cursor w + 6 + 16)%nat with (cursor w + 22)%nat by lia.
Qed.

Lemma forgotPassword_never_blacklists (w : World) (email : string) :
  blacklist (snd (forgotPassword email w)) = blacklist w
  /\ exists logged,
       trace (snd (forgotPassword email w)) = trace w ++ logged
       /\ blacklistings logged = [].
Proof.
  run_service. split_cases; (split; [reflexivity|]);
    rewrite <- ?app_assoc; eexists; split; reflexivity.
Qed.

(** What [forgotPassword] does when the send resolves, and what it does in
    every case.  The OTP renders six fresh random bytes as twelve
    hexadecimal characters; once the notifier has taken the mail that
    carries it in the clear, the user is stored with the bcrypt hash of the
    OTP and an expiry five minutes after the clock reading, and the answer
    is "OTP sent to your email".  For an email with no user the answer is
    "User not found" and nothing changes.  In no case is the blacklist
    touched. *)
Theorem forgotPassword_issues_otp (w : World) (email : string) :
  let otp := toString_hex (entropy_bytes (cursor w) 6) in
  let salt := bcrypt_salt 10 (entropy_bytes (cursor w + 6) 16) in
  let mail := {| recipients := [email]; params := otp_param otp; templateId := 2 |} in
  (String.length otp = 12%nat /\ all_hex otp = true)
  /\ (forall user : User.t,
        stored w email user ->
        mailer mail = Resolved tt ->
        exists w',
          forgotPassword email w =
            (Return (Format.success DataEmpty "OTP sent to your email"), w')
          /\ users w' =
               <[email := User.set_otpExpires (Some (now w + 5 * 60 * 1000))
                            (User.set_otp (Some (bcrypt_digest otp salt)) user)]>
                 (users w)
          /\ trace w' = trace w ++ [EvLog LogInfo "[forgotPassword()] is called";
                                    EvSendEmail mail]
          /\ cursor w' = (cursor w + 22)%nat)
  /\ (users w !! email = None ->
      forgotPassword email w =
        (Return (Format.notFound "User not found"),
         emit [EvLog LogInfo "[forgotPassword()] is called"] w))
  /\ (blacklist (snd (forgotPassword email w)) = blacklist w
      /\ exists logged,
           trace (snd (forgotPassword email w)) = trace w ++ logged
           /\ blacklistings logged = []).
Proof.
  intros otp salt mail. split; [|split; [|split]].
  - split.
    + subst otp. unfold entropy_bytes.
      now rewrite toString_hex_length, length_map, length_seq.
    + apply toString_hex_all_hex.
  - intros user [Hu He] Hm. subst mail otp salt.
    eexists. split.
    + apply forgotPassword_sent; [exact Hu|]. unfold otp_mail, otp_of.
      now rewrite He.
    + cbn. unfold otp_mail, otp_of, salt_of. rewrite He. repeat split.
  - apply forgotPassword_unknown.
  - apply forgotPassword_never_blacklists.
Qed.
End ForgotPassword.

(** ** Password reset *)

Section ResetPassword.
Context `{Env}.

Lemma resetPassword_unknown (w : World) (props : ResetProps) :
  users w !! reset_email props = None ->
  resetPassword props w =
    (Return (Format.notFound "User not found"),
     emit [EvLog LogInfo "[forgotPassword()] is called"] w).
Proof. intros Hu. run_service. now rewrite Hu. Qed.

Lemma resetPassword_expired (w : World) (props : ResetProps) (user : User.t) :
  users w !! reset_email props = Some user ->
  User.otpExpires user = None \/ User.otp user = None \/ User.otp user = Some ""
    \/ (exists t, User.otpExpires user = Some t /\ t < now w) ->
  resetPassword props w =
    (Return (Format.badRequest "OTP expired"),
     emit [EvLog LogInfo "[forgotPassword()] is called"] w).
Proof.
  intros Hu Hc. run_service. rewrite Hu. cbn.
  destruct Hc as [Hc|[Hc|[Hc|(t & Hc & Hlt)]]]; rewrite Hc; cbn.
  - reflexivity.
  - now rewrite orb_true_r.
  - now rewrite orb_true_r.
  - apply Z.ltb_lt in Hlt. rewrite Hlt. now rewrite !orb_true_r.
Qed.

(** With an OTP on record and its expiry not passed, the reset goes
    through whatever OTP the caller supplies: the comparison is started
    but its promise is what gets tested, not what it resolves to. *)
Lemma resetPassword_any_otp (w : World) (props : ResetProps) (user : User.t)
    (hashed : string) (t : Z) :
  users w !! reset_email props = Some user ->
  User.otp user = Some hashed ->
  hashed <> "" ->
  User.otpExpires user = Some t ->
  now w <= t ->
  resetPassword props w =
    (Return (Format.success DataEmpty "Password reset successfully"),
     set_users
       (<[User.email user :=
            User.set_otpExpires None
              (User.set_otp None (User.set_password (reset_password props) user))]>
          (users w))
       (emit [EvLog LogInfo "[forgotPassword()] is called"] w)).
Proof.
  intros Hu Ho Hne He Hle. run_service. rewrite Hu. cbn.
  rewrite Ho, He. cbn.
  apply String.eqb_neq in Hne. rewrite Hne. cbn.
  assert ((t <? now w) = false) as -> by (apply Z.ltb_ge; lia).
  reflexivity.
Qed.

Lemma resetPassword_never_invalid_otp (w : World) (props : ResetProps) :
  fst (resetPassword props w) <> Return (Format.badRequest "Invalid OTP").
Proof. run_service. split_cases; discriminate. Qed.
End ResetPassword.

(** C1. [resetPassword] does not test the supplied OTP.  Alice has the hash
    of OTP [4a6f9c01d2e3] on record, good until clock reading 300000; at
    clock reading 1000 a reset with the OTP [000000000000], which does not
    hash to the stored value, answers "Password reset successfully", stores
    the new password and clears both OTP fields. *)
Theorem resetPassword_accepts_wrong_otp :
  let props := mkReset "a@x.com" "hunter2" "000000000000" in
  let w := worldOf aliceWithOtp 1000 in
  stored w "a@x.com" aliceWithOtp
  /\ @bcrypt_verify demoEnv (reset_otp props) "bcrypt(4a6f9c01d2e3)" = false
  /\ fst (@resetPassword demoEnv props w) =
       Return (Format.success DataEmpty "Password reset successfully")
  /\ users (snd (@resetPassword demoEnv props w)) !! "a@x.com" =
       Some (User.set_otpExpires None
               (User.set_otp None (User.set_password "hunter2" aliceWithOtp))).
Proof. repeat split; vm_compute; reflexivity. Qed.

(** ** The notifier *)

Section Notifier.
Context (E : Env).

Lemma addUser_ignores_mailer (m1 m2 : Mail -> Promise unit)
    (props : IAddUserPayload) (w : World) :
  @addUser (with_mailer E m1) props w = @addUser (with_mailer E m2) props w.
Proof. run_service. now split_cases. Qed.

Lemma loginUser_ignores_mailer (m1 m2 : Mail -> Promise unit)
    (props : ILoginUserPayload) (w : World) :
  @loginUser (with_mailer E m1) props w = @loginUser (with_mailer E m2) props w.
Proof. run_service. now split_cases. Qed.
End Notifier.

(** C7. A rejected send goes unnoticed by [addUser] and [loginUser], which
    drop the promise: with any two mail providers they do the same.  It
    does not go unnoticed by [forgotPassword], which waits for the promise:
    for Alice, with the provider down, the call throws the provider's error
    and stores no OTP, where with the provider up it answers "OTP sent to
    your email". *)
Theorem forgotPassword_aborts_when_send_fails :
  (forall (E : Env) (m1 m2 : Mail -> Promise unit) props w,
      @addUser (with_mailer E m1) props w = @addUser (with_mailer E m2) props w)
  /\ (forall (E : Env) (m1 m2 : Mail -> Promise unit) props w,
        @loginUser (with_mailer E m1) props w = @loginUser (with_mailer E m2) props w)
  /\ fst (@forgotPassword demoEnv "a@x.com" (worldOf aliceVerified 1000)) =
       Return (Format.success DataEmpty "OTP sent to your email")
  /\ fst (@forgotPassword mailDownEnv "a@x.com" (worldOf aliceVerified 1000)) =
       Throw mailDown
  /\ users (snd (@forgotPassword mailDownEnv "a@x.com" (worldOf aliceVerified 1000)))
       !! "a@x.com" = Some aliceVerified.
Proof.
  split; [exact addUser_ignores_mailer|].
  split; [exact loginUser_ignores_mailer|].
  repeat split; vm_compute; reflexivity.
Qed.

(** C8. [forgotPassword] does not store an OTP and succeed for every
    registered email.  For Alice, who is registered, with the mail provider
    down, the call draws the OTP [00254a6f94b9] and hands the mail that
    carries it to the notifier, then throws the provider's error: the users
    store is what it was, with no OTP hash and no expiry on Alice's record.
    The blacklist is untouched, as in every case. *)
Theorem forgotPassword_registered_email_stores_nothing_when_send_fails :
  let w := worldOf aliceVerified 1000 in
  let run := @forgotPassword mailDownEnv "a@x.com" w in
  stored w "a@x.com" aliceVerified
  /\ fst run = Throw mailDown
  /\ users (snd run) = users w
  /\ (User.otp <$> users (snd run) !! "a@x.com") = Some None
  /\ (User.otpExpires <$> users (snd run) !! "a@x.com") = Some None
  /\ mails_sent (since w (snd run)) =
       [{| recipients := ["a@x.com"];
           params := otp_param "00254a6f94b9";
           templateId := 2 |}]
  /\ blacklist (snd run) = blacklist w.
Proof. repeat split; vm_compute; reflexivity. Qed.

(** ** The theorems at work on Alice *)

Lemma keyed_by_email_worldOf (u : User.t) (t : Z) : keyed_by_email (worldOf u t).
Proof. unfold keyed_by_email, worldOf; cbn. now apply map_Forall_singleton. Qed.

Lemma addUser_twice_already_exists_witness :
  exists created w1,
    @addUser demoEnv (mkAddUser "a@x.com" "P@ssw0rd") emptyWorld =
      (Return (Format.success (DataUser created) "User created successfully"), w1)
    /\ fst (@addUser demoEnv (mkAddUser "a@x.com" "hunter2") w1) =
         Throw (APIError "Account already exists with this email." 400).
Proof.
  destruct (@addUser_twice_already_exists demoEnv emptyWorld
              (mkAddUser "a@x.com" "P@ssw0rd") (mkAddUser "a@x.com" "hunter2"))
    as (created & w1 & Hfirst & _ & _ & _ & Hlater).
  - vm_compute; reflexivity.
  - reflexivity.
  - exists created, w1. split; [exact Hfirst | exact (Hlater [])].
Defined.

Lemma loginUser_unverified_forbidden_witness :
  fst (@loginUser demoEnv (mkLogin "a@x.com" "P@ssw0rd") (worldOf alice 1000)) =
    Return (Format.error 403
              "Email not verified. Verification link sent to your email.")
  /\ fst (@loginUser demoEnv (mkLogin "a@x.com" "not it") (worldOf alice 1000)) =
       Return (Format.error 403
                 "Email not verified. Verification link sent to your email.").
Proof.
  split.
  - rewrite (@loginUser_unverified_forbidden demoEnv (worldOf alice 1000) alice
               (mkLogin "a@x.com" "P@ssw0rd")); [reflexivity | | reflexivity].
    vm_compute; reflexivity.
  - rewrite (@loginUser_unverified_forbidden demoEnv (worldOf alice 1000) alice
               (mkLogin "a@x.com" "not it")); [reflexivity | | reflexivity].
    vm_compute; reflexivity.
Defined.

Lemma verifyEmail_succeeds_once_witness :
  exists w1,
    verifyEmail "c0ffee" "a@x.com" (worldOf alice 1000) =
      (Return (Format.success DataEmpty "Email verified successfully"), w1)
    /\ fst (runs 2 (verifyEmail "c0ffee" "a@x.com") w1) =
         [Return (Format.badRequest "Invalid verification link");
          Return (Format.badRequest "Invalid verification link")].
Proof.
  destruct (@verifyEmail_succeeds_once demoEnv (worldOf alice 1000) alice
              "c0ffee" "a@x.com")
    as (w1 & Hfirst & _ & _ & _ & Hreplay & _).
  - apply keyed_by_email_worldOf.
  - vm_compute; reflexivity.
  - reflexivity.
  - discriminate.
  - exists w1. split; [exact Hfirst | exact (Hreplay 2%nat)].
Defined.

Lemma verifyEmail_empty_token_succeeds_again_witness :
  exists w1,
    verifyEmail "c0ffee" "a@x.com" (worldOf alice 1000) =
      (Return (Format.success DataEmpty "Email verified successfully"), w1)
    /\ fst (verifyEmail "" "a@x.com" w1) =
         Return (Format.success DataEmpty "Email verified successfully").
Proof.
  destruct (@verifyEmail_empty_token_succeeds_again demoEnv (worldOf alice 1000)
              alice "c0ffee" "a@x.com")
    as (w1 & Hfirst & _ & _ & Hagain).
  - apply keyed_by_email_worldOf.
  - vm_compute; reflexivity.
  - reflexivity.
  - exists w1. split; [exact Hfirst | exact (Hagain [])].
Defined.

Lemma logoutUser_blacklists_decodable_tokens_witness :
  (exists w',
      @logoutUser demoEnv "garbage" emptyWorld =
        (Return (Format.success DataEmpty "User already logged out"), w')
      /\ blacklist w' = ∅)
  /\ (exists w',
        @logoutUser demoEnv "refresh.u1" emptyWorld =
          (Return (Format.success DataEmpty "User logged out successfully"), w')
        /\ blacklist w' = {[ "refresh.u1" := 900000 ]}).
Proof.
  split.
  - destruct (proj1 (@logoutUser_blacklists_decodable_tokens demoEnv emptyWorld
                       "garbage")
                (JsError "JsonWebTokenError" "jwt malformed") eq_refl)
      as (w' & Hrun & Hbl & _).
    exists w'. split; [exact Hrun | exact Hbl].
  - destruct (proj2 (@logoutUser_blacklists_decodable_tokens demoEnv emptyWorld
                       "refresh.u1")
                (mkJwtPayload 900000) eq_refl)
      as (w' & Hrun & Hbl & _).
    exists w'. split; [exact Hrun | exact Hbl].
Defined.

Lemma refreshAccessToken_blacklists_before_issuing_witness :
  let run := @refreshAccessToken demoEnv alice "refresh.u1" emptyWorld in
  fst run = Return (Format.success (DataAccessToken "access.u1")
                      "Access,Refresh token updated successfully")
  /\ exists payload tokens,
       @jwt_decode demoEnv (now emptyWorld) "refresh.u1" = Resolved payload
       /\ blacklist (snd run) !! "refresh.u1" = Some (exp payload)
       /\ trace (snd run) =
            trace emptyWorld ++
              [EvLog LogInfo "[refreshAccessToken()] is called";
               EvBlacklistToken "refresh.u1" (exp payload);
               EvGenerateTokens (User.id alice) (User.email alice);
               EvCookie "refreshToken" (refreshToken tokens)
                 (@refreshCookieOptions demoEnv)]
       /\ Format.success (DataAccessToken "access.u1")
            "Access,Refresh token updated successfully" =
          Format.success (DataAccessToken (accessToken tokens))
            "Access,Refresh token updated successfully".
Proof.
  intros run. split; [vm_compute; reflexivity|].
  apply (proj1 (@refreshAccessToken_blacklists_before_issuing demoEnv emptyWorld
                  alice "refresh.u1")).
  vm_compute; reflexivity.
Defined.

Lemma refreshAccessToken_decode_failure_propagates_witness :
  @refreshAccessTokenHandler demoEnv (mkRefreshRequest alice "garbage" []) emptyWorld =
    (Next (JsError "JsonWebTokenError" "jwt malformed"),
     emit [EvLog LogInfo "[refreshAccessToken()] is called"] emptyWorld).
Proof.
  apply (@refreshAccessToken_decode_failure_propagates demoEnv emptyWorld
           (mkRefreshRequest alice "garbage" [])
           (JsError "JsonWebTokenError" "jwt malformed")); reflexivity.
Defined.

Lemma forgotPassword_issues_otp_witness :
  exists w',
    @forgotPassword demoEnv "a@x.com" (worldOf aliceVerified 1000) =
      (Return (Format.success DataEmpty "OTP sent to your email"), w')
    /\ trace w' =
         [EvLog LogInfo "[forgotPassword()] is called";
          EvSendEmail {| recipients := ["a@x.com"];
                         params := otp_param "00254a6f94b9";
                         templateId := 2 |}]
    /\ (User.otp <$> users w' !! "a@x.com") = Some (Some "bcrypt(00254a6f94b9)")
    /\ (User.otpExpires <$> users w' !! "a@x.com") = Some (Some 301000).
Proof.
  destruct (@forgotPassword_issues_otp demoEnv (worldOf aliceVerified 1000) "a@x.com")
    as (_ & Hsent & _).
  destruct (Hsent aliceVerified) as (w' & Hrun & Hus & Htr & _).
  - split; [vm_compute; reflexivity | reflexivity].
  - reflexivity.
  - exists w'. split; [exact Hrun|]. split; [exact Htr|].
    rewrite Hus. split; vm_compute; reflexivity.
Defined.

(** * Further properties of the service *)

Lemma since_app (w w' : World) (added : list Event) :
  trace w' = trace w ++ added -> since w w' = added.
Proof. intros Ht. unfold since. rewrite Ht. apply drop_app_length. Qed.

Lemma since_same (w w' : World) : trace w' = trace w -> since w w' = [].
Proof. intros Ht. apply since_app. now rewrite app_nil_r. Qed.

(** ** Login of a verified account *)

Section LoginVerified.
Context `{Env}.

(** X1. For a verified user and a password that does not match,
    [loginUser] answers "Invalid credentials" and does nothing else: no
    token pair, no cookie, no mail, and the stored user (its [lastLogin]
    too) stays as it was. *)
Theorem loginUser_wrong_password (w : World) (user : User.t)
    (props : ILoginUserPayload) :
  users w !! login_email props = Some user ->
  User.isVerified user = true ->
  password_matches user (login_password props) = false ->
  loginUser props w =
    (Return (Format.unAuthorized "Invalid credentials"),
     emit [EvLog LogInfo "[loginUser()] is called"] w).
Proof.
  intros Hu Hv Hp. run_service. rewrite Hu. cbn. now rewrite Hv, Hp.
Qed.

(** X2. For a verified user and a matching password, [loginUser] answers
    with the access token of a freshly signed pair, writes the user back
    with [lastLogin] at the clock reading and nothing else changed, and
    sets the refresh token as the [refreshToken] cookie: http-only, with a
    [maxAge] of 604800000 ms, secure and same-site [none] in production
    only.  No mail is sent and the blacklist is not touched. *)
Theorem loginUser_success (w : World) (user : User.t) (props : ILoginUserPayload) :
  users w !! login_email props = Some user ->
  User.isVerified user = true ->
  password_matches user (login_password props) = true ->
  let tokens := jwt_sign (User.id user) (User.email user) (now w) in
  exists w',
    loginUser props w =
      (Return (Format.success (DataAccessToken (accessToken tokens))
                 "User login successful"), w')
    /\ users w' = <[User.email user := User.set_lastLogin (Some (now w)) user]> (users w)
    /\ blacklist w' = blacklist w
    /\ since w w' =
         [EvLog LogInfo "[loginUser()] is called";
          EvGenerateTokens (User.id user) (User.email user);
          EvCookie "refreshToken" (refreshToken tokens)
            {| httpOnly := true; secure := production; maxAge := 604800000;
               sameSite := if production then SameSiteNone else SameSiteStrict |}].
Proof.
  intros Hu Hv Hp tokens. run_service. rewrite Hu. cbn. rewrite Hv, Hp. cbn.
  eexists. split; [reflexivity|]. cbn. repeat split. now since_events.
Qed.

(** X3. [loginUser] signs a token pair or sets a cookie only for a stored,
    verified user whose password matches: whenever a run shows either
    effect, all three hold. *)
Theorem loginUser_tokens_only_when_authenticated (w : World)
    (props : ILoginUserPayload) :
  let added := since w (snd (loginUser props w)) in
  issuances added <> [] \/ cookies_set added <> [] ->
  exists user,
    users w !! login_email props = Some user
    /\ User.isVerified user = true
    /\ password_matches user (login_password props) = true.
Proof.
  cbn zeta. run_service.
  destruct (users w !! login_email props) as [user|] eqn:Hu; cbn.
  - destruct (User.isVerified user) eqn:Hv; cbn.
    + destruct (password_matches user (login_password props)) eqn:Hp; cbn.
      * intros _. now exists user.
      * since_events. intros [Hc|Hc]; now contradiction Hc.
    + since_events. intros [Hc|Hc]; now contradiction Hc.
  - since_events. intros [Hc|Hc]; now contradiction Hc.
Qed.
End LoginVerified.

(** ** Which verifications and resets go through *)

Section Outcomes.
Context `{Env}.

(** X4. [verifyEmail] succeeds exactly when the email has a user whose
    stored verification token is the supplied one; in every other case
    the users store is left as it was. *)
Theorem verifyEmail_succeeds_iff_token_matches (w : World) (token email : string) :
  (fst (verifyEmail token email w) =
     Return (Format.success DataEmpty "Email verified successfully")
   <-> exists user,
         users w !! email = Some user
         /\ User.verificationToken user = Some token)
  /\ (fst (verifyEmail token email w) <>
        Return (Format.success DataEmpty "Email verified successfully") ->
      users (snd (verifyEmail token email w)) = users w).
Proof.
  destruct (users w !! email) as [user|] eqn:Hu.
  - destruct (decide (User.verificationToken user = Some token)) as [Ht|Ht].
    + rewrite (verifyEmail_match w user token email Hu Ht). cbn. split.
      * split; [intros _; now exists user | reflexivity].
      * intros Hc. now contradiction Hc.
    + rewrite (verifyEmail_mismatch w user token email Hu Ht). cbn. split.
      * split; [discriminate|]. intros (u & Hu' & Ht'). congruence.
      * reflexivity.
  - rewrite (verifyEmail_unknown w token email Hu). cbn. split.
    + split; [discriminate|]. intros (u & Hu' & _). congruence.
    + reflexivity.
Qed.

(** X5. The outcome of [resetPassword] does not depend on the OTP in the
    request: two requests that differ in the OTP only get the same answer
    and leave the same world. *)
Theorem resetPassword_ignores_supplied_otp (w : World)
    (email password otp1 otp2 : string) :
  resetPassword (mkReset email password otp1) w =
  resetPassword (mkReset email password otp2) w.
Proof. run_service. now split_cases. Qed.

Lemma resetPassword_outcomes (w : World) (props : ResetProps) :
  (fst (resetPassword props w) =
     Return (Format.success DataEmpty "Password reset successfully")
   <-> exists user hashed t,
         users w !! reset_email props = Some user
         /\ User.otp user = Some hashed /\ hashed <> ""
         /\ User.otpExpires user = Some t /\ now w <= t)
  /\ (fst (resetPassword props w) <>
        Return (Format.success DataEmpty "Password reset successfully") ->
      users (snd (resetPassword props w)) = users w).
Proof.
  destruct (users w !! reset_email props) as [user|] eqn:Hu.
  - destruct (User.otpExpires user) as [t|] eqn:He.
    + destruct (User.otp user) as [hashed|] eqn:Ho.
      * destruct (decide (hashed = "")) as [->|Hne].
        -- rewrite (resetPassword_expired w props user Hu) by tauto. cbn. split.
           ++ split; [discriminate|]. intros (u & h & t' & Hu' & Ho' & Hne & _).
              congruence.
           ++ reflexivity.
        -- destruct (Z_lt_le_dec t (now w)) as [Hlt|Hle].
           ++ rewrite (resetPassword_expired w props user Hu) by eauto 6. cbn. split.
              ** split; [discriminate|].
                 intros (u & h & t' & Hu' & _ & _ & He' & Hle). 
                 assert (t' = t) by congruence. lia.
              ** reflexivity.
           ++ rewrite (resetPassword_any_otp w props user hashed t Hu Ho Hne He Hle).
              cbn. split.
              ** split; [intros _; now exists user, hashed, t | reflexivity].
              ** intros Hc. now contradiction Hc.
      * rewrite (resetPassword_expired w props user Hu) by tauto. cbn. split.
        -- split; [discriminate|]. intros (u & h & t' & Hu' & Ho' & _). congruence.
        -- reflexivity.
    + rewrite (resetPassword_expired w props user Hu) by tauto. cbn. split.
      * split; [discriminate|].
        intros (u & h & t' & Hu' & _ & _ & He' & _). congruence.
      * reflexivity.
  - rewrite (resetPassword_unknown w props Hu). cbn. split.
    + split; [discriminate|]. intros (u & h & t' & Hu' & _). congruence.
    + reflexivity.
Qed.

(** X6. [resetPassword] succeeds exactly when the email has a user with a
    non-empty [otp] on record and an [otpExpires] not earlier than the
    clock reading (a reading equal to the expiry still passes); in every
    other case the users store is left as it was. *)
Theorem resetPassword_succeeds_iff_otp_on_record (w : World) (props : ResetProps) :
  (fst (resetPassword props w) =
     Return (Format.success DataEmpty "Password reset successfully")
   <-> exists user hashed t,
         users w !! reset_email props = Some user
         /\ User.otp user = Some hashed /\ hashed <> ""
         /\ User.otpExpires user = Some t /\ now w <= t)
  /\ (fst (resetPassword props w) <>
        Return (Format.success DataEmpty "Password reset successfully") ->
      users (snd (resetPassword props w)) = users w).
Proof. apply resetPassword_outcomes. Qed.

(** X7. After [forgotPassword] has gone through for a stored user at clock
    reading [now w], a [resetPassword] for that email succeeds at every
    later reading up to [now w + 300000] and stores the new password with
    both OTP fields cleared; at every reading past that it answers "OTP
    expired" and stores nothing. *)
Theorem forgotPassword_then_resetPassword (w : World) (user : User.t)
    (props : ResetProps) (later : Z) :
  stored w (reset_email props) user ->
  mailer (otp_mail w (reset_email props)) = Resolved tt ->
  bcrypt_digest (otp_of w) (salt_of w) <> "" ->
  let w1 := snd (forgotPassword (reset_email props) w) in
  let asked :=
    User.set_otpExpires (Some (now w + 5 * 60 * 1000))
      (User.set_otp (Some (bcrypt_digest (otp_of w) (salt_of w))) user) in
  users w1 !! reset_email props = Some asked
  /\ (later <= now w + 300000 ->
      fst (resetPassword props (set_now later w1)) =
        Return (Format.success DataEmpty "Password reset successfully")
      /\ users (snd (resetPassword props (set_now later w1))) !! reset_email props =
           Some (User.set_otpExpires None
                   (User.set_otp None
                      (User.set_password (reset_password props) asked))))
  /\ (now w + 300000 < later ->
      fst (resetPassword props (set_now later w1)) =
        Return (Format.badRequest "OTP expired")
      /\ users (snd (resetPassword props (set_now later w1))) = users w1).
Proof.
  intros [Hu He] Hm Hne w1 asked.
  assert (Hw1 : users w1 !! reset_email props = Some asked).
  { subst w1. rewrite (forgotPassword_sent w _ user Hu) by now rewrite He.
    cbn. rewrite He. apply lookup_insert_eq. }
  assert (Hasked : User.email asked = reset_email props) by exact He.
  split; [exact Hw1|]. split.
  - intros Hle.
    assert (Hrun := resetPassword_any_otp (set_now later w1) props asked
                      (bcrypt_digest (otp_of w) (salt_of w))
                      (now w + 5 * 60 * 1000) Hw1 eq_refl Hne eq_refl).
    rewrite Hrun by (cbn; lia).
    split; [reflexivity|]. cbn. rewrite He. apply lookup_insert_eq.
  - intros Hlt.
    rewrite (resetPassword_expired (set_now later w1) props asked); [now split|exact Hw1|].
    right; right; right. exists (now w + 5 * 60 * 1000). split; [reflexivity|cbn; lia].
Qed.

(** X8. An OTP serves once: right after a successful [resetPassword], a
    further [resetPassword] for the same email, at whatever clock reading
    and with whatever password and OTP, answers "OTP expired" and stores
    nothing. *)
Theorem resetPassword_otp_serves_once (w : World) (user : User.t)
    (props again : ResetProps) (later : Z) :
  stored w (reset_email props) user ->
  fst (resetPassword props w) =
    Return (Format.success DataEmpty "Password reset successfully") ->
  reset_email again = reset_email props ->
  let w1 := set_now later (snd (resetPassword props w)) in
  fst (resetPassword again w1) = Return (Format.badRequest "OTP expired")
  /\ users (snd (resetPassword again w1)) = users w1.
Proof.
  intros [Hu He] Hok Hsame w1.
  apply (proj1 (resetPassword_outcomes w props)) in Hok.
  destruct Hok as (u & hashed & t & Hu' & Ho & Hne & Ht & Hle).
  assert (u = user) as -> by congruence.
  assert (Hw1 : users w1 !! reset_email again =
                Some (User.set_otpExpires None
                        (User.set_otp None
                           (User.set_password (reset_password props) user)))).
  { subst w1. rewrite (resetPassword_any_otp w props user hashed t) by assumption.
    cbn. rewrite He, Hsame. apply lookup_insert_eq. }
  rewrite (resetPassword_expired w1 again _ Hw1); [now split|]. now left.
Qed.
End Outcomes.

(** ** What no sequence of calls undoes *)

Section Lasting.
Context `{Env}.

Lemma step_store_step (s : Step) (w : World) :
  store_step (keeps s) (users w) (users (step s w)).
Proof.
  destruct s; unfold step; run_service; split_cases;
    try apply store_same.
  - eapply store_created; [eassumption | reflexivity].
  - eapply store_saved; [eassumption | now repeat split].
  - eapply store_saved; [eassumption | now repeat split].
  - eapply store_saved; [eassumption | now repeat split].
  - eapply store_saved; [eassumption | repeat split; try discriminate; auto].
Qed.

Lemma store_step_lookup (R : User.t -> User.t -> Prop)
    (us us' : gmap string User.t) (email : string) (u : User.t) :
  map_Forall (fun k (d : User.t) => User.email d = k) us ->
  store_step R us us' ->
  us !! email = Some u ->
  exists u', us' !! email = Some u' /\ (u' = u \/ R u u').
Proof.
  intros Hkey Hstep Hu. destruct Hstep as [|k d d' Hk HR|k d' Hk He].
  - exists u. tauto.
  - pose proof (Hkey _ _ Hk) as Hkd. cbn in Hkd. rewrite Hkd.
    destruct (decide (k = email)) as [->|Hne].
    + exists d'. rewrite lookup_insert_eq. split; [reflexivity|].
      right. congruence.
    + exists u. rewrite lookup_insert_ne by assumption. tauto.
  - exists u. rewrite lookup_insert_ne by congruence. tauto.
Qed.

Lemma steps_preserve (P : User.t -> Prop) (allowed : Step -> bool) :
  (forall s u u', allowed s = true -> keeps s u u' -> P u -> P u') ->
  forall (ss : list Step) (w : World) (email : string) (u : User.t),
    keyed_by_email w ->
    Forall (fun s => allowed s = true) ss ->
    users w !! email = Some u ->
    P u ->
    exists u', users (steps ss w) !! email = Some u' /\ P u'.
Proof.
  intros HP ss. induction ss as [|s ss IH]; intros w email u Hk Hall Hu Hp.
  - now exists u.
  - rewrite steps_cons. inversion Hall as [|? ? Hs Hss]; subst.
    destruct (store_step_lookup _ _ _ email u Hk (step_store_step s w) Hu)
      as (u1 & Hu1 & Hrel).
    apply (IH (step s w) email u1); try assumption.
    + apply (steps_keyed [s]), Hk.
    + destruct Hrel as [->|Hrel]; [assumption | now apply (HP s u u1)].
Qed.

(** X9. Over any sequence of service calls and clock changes, a stored
    account stays stored under its email with the same id and the same
    email, and an account that is verified stays verified. *)
Theorem steps_keep_identity_and_verification (ss : list Step) (w : World)
    (email : string) (user : User.t) :
  keyed_by_email w ->
  users w !! email = Some user ->
  exists user',
    users (steps ss w) !! email = Some user'
    /\ User.id user' = User.id user
    /\ User.email user' = User.email user
    /\ (User.isVerified user = true -> User.isVerified user' = true).
Proof.
  intros Hk Hu.
  refine (steps_preserve
            (fun d => User.id d = User.id user /\ User.email d = User.email user
                      /\ (User.isVerified user = true -> User.isVerified d = true))
            (fun _ => true) _ ss w email user Hk _ Hu _).
  - intros s u u' _ (Hid & Hem & Hver & _) (Pid & Pem & Pver).
    repeat split; try congruence. intros Hv. auto.
  - now apply Forall_forall.
  - tauto.
Qed.

(** X10. A stored password is changed by [resetPassword] only: over any
    sequence of calls and clock changes with no reset among them, the
    account keeps the password it had. *)
Theorem steps_without_reset_keep_password (ss : list Step) (w : World)
    (email : string) (user : User.t) :
  keyed_by_email w ->
  users w !! email = Some user ->
  Forall (fun s => is_reset s = false) ss ->
  exists user',
    users (steps ss w) !! email = Some user'
    /\ User.password user' = User.password user.
Proof.
  intros Hk Hu Hall.
  refine (steps_preserve (fun d => User.password d = User.password user)
            (fun s => negb (is_reset s)) _ ss w email user Hk _ Hu eq_refl).
  - intros s u u' Hs (_ & _ & _ & Hpw) Pu. apply negb_true_iff in Hs.
    rewrite (Hpw Hs). exact Pu.
  - eapply Forall_impl; [exact Hall|]. cbn. intros s Hs. now rewrite Hs.
Qed.

Lemma step_blacklist_untouched (s : Step) (w : World) :
  is_revocation s = false ->
  blacklist (step s w) = blacklist w
  /\ blacklistings (since w (step s w)) = [].
Proof.
  destruct s; cbn [is_revocation]; try discriminate; intros _;
    unfold step; run_service; split_cases; split; try reflexivity;
    now since_events.
Qed.

Lemma step_blacklist_kept (s : Step) (w : World) (token : string) :
  is_Some (blacklist w !! token) -> is_Some (blacklist (step s w) !! token).
Proof.
  intros Hb. destruct (is_revocation s) eqn:Hs.
  - destruct s; try discriminate; unfold step; run_service; split_cases;
      try assumption; rewrite lookup_insert_is_Some;
      match goal with
      | |- ?a = token \/ _ => destruct (decide (a = token)); tauto
      end.
  - now rewrite (proj1 (step_blacklist_untouched s w Hs)).
Qed.

(** X11. Only [refreshAccessToken] and [logoutUser] touch the blacklist:
    over any sequence of the other calls and of clock changes the
    blacklist stays what it was. *)
Theorem steps_without_revocation_keep_blacklist (ss : list Step) (w : World) :
  Forall (fun s => is_revocation s = false) ss ->
  blacklist (steps ss w) = blacklist w.
Proof.
  revert w. induction ss as [|s ss IH]; intros w Hall; [reflexivity|].
  inversion Hall as [|? ? Hs Hss]; subst. rewrite steps_cons, IH by assumption.
  apply step_blacklist_untouched, Hs.
Qed.

(** X12. A blacklisted token stays blacklisted over any sequence of calls
    and clock changes: nothing in the service takes an entry out. *)
Theorem steps_keep_blacklisted (ss : list Step) (w : World) (token : string) :
  is_Some (blacklist w !! token) ->
  is_Some (blacklist (steps ss w) !! token).
Proof.
  revert w. induction ss as [|s ss IH]; intros w Hb; [assumption|].
  rewrite steps_cons. apply IH. now apply step_blacklist_kept.
Qed.
End Lasting.

(** ** From signup to login *)

Section Journey.
Context `{Env}.

(** X14. Signing up with an email that has no user sends one mail, whose
    link carries the verification token stored for the new user.  Until
    that link is used a login is answered with the 403 error whatever the
    password; [verifyEmail] with the mailed token succeeds; after it a
    login is answered by the password alone, with success or with "Invalid
    credentials". *)
Theorem signup_then_verify_then_login (w : World) (props : IAddUserPayload)
    (attempt : string) :
  users w !! add_email props = None ->
  let email := add_email props in
  exists (user : User.t) (T : string) (w1 w2 : World),
    addUser props w =
      (Return (Format.success (DataUser (toObject_sanitized user))
                 "User created successfully"), w1)
    /\ User.verificationToken user = Some T
    /\ mails_sent (since w w1) =
         [{| recipients := [email];
             params := verification_url
               (BACKEND_URL +:+ "/api/user/verify/" +:+ T +:+ "?email=" +:+ email);
             templateId := 1 |}]
    /\ fst (loginUser (mkLogin email attempt) w1) =
         Return (Format.error 403
                   "Email not verified. Verification link sent to your email.")
    /\ verifyEmail T email w1 =
         (Return (Format.success DataEmpty "Email verified successfully"), w2)
    /\ fst (loginUser (mkLogin email attempt) w2) =
         if password_matches (verified user) attempt
         then Return (Format.success
                        (DataAccessToken
                           (accessToken (jwt_sign (User.id user) email (now w))))
                        "User login successful")
         else Return (Format.unAuthorized "Invalid credentials").
Proof.
  intros Hfree email.
  destruct (addUser_fresh w props Hfree)
    as (user & w1 & Hrun & Hemail & Hunv & Hus & Htr & T & HT & _).
  assert (Hu1 : users w1 !! email = Some user).
  { rewrite Hus. apply lookup_insert_eq. }
  exists user, T, w1,
    (set_users (<[User.email user := verified user]> (users w1))
       (emit [EvLog LogInfo "[verifyEmail()] is called"] w1)).
  split; [exact Hrun|]. split; [exact HT|]. split.
  { rewrite (since_app w w1 _ Htr). cbn. unfold verificationMail.
    now rewrite HT, Hemail. }
  split.
  { now rewrite (loginUser_unverified_forbidden w1 user (mkLogin email attempt) Hu1 Hunv). }
  split; [exact (verifyEmail_match w1 user T email Hu1 HT)|].
  assert (Hnow : now w1 = now w).
  { clear -Hrun Hfree. revert Hrun. run_service. rewrite Hfree. cbn.
    intros Heq. apply (f_equal snd) in Heq. cbn in Heq. now rewrite <- Heq. }
  run_service. rewrite Hemail. rewrite lookup_insert_eq. cbn.
  destruct (password_matches (verified user) attempt); cbn; [|reflexivity].
  now rewrite Hemail, Hnow.
Qed.
End Journey.

(** ** Asking twice, and the shape of stored users *)

Section Shape.
Context `{Env}.

(** X21. A second [forgotPassword] replaces the OTP of the first: the hash
    on record is that of the second OTP, which renders random bytes drawn
    after all those of the first call, and the expiry restarts from the
    second call's clock reading. *)
Theorem forgotPassword_again_replaces_otp (w : World) (email : string)
    (user : User.t) (later : Z) :
  stored w email user ->
  mailer (otp_mail w email) = Resolved tt ->
  let w1 := set_now later (snd (forgotPassword email w)) in
  mailer (otp_mail w1 email) = Resolved tt ->
  let second := toString_hex (entropy_bytes (cursor w + 22) 6) in
  exists user2,
    users (snd (forgotPassword email w1)) !! email = Some user2
    /\ User.otp user2 =
         Some (bcrypt_digest second
                 (bcrypt_salt 10 (entropy_bytes (cursor w + 22 + 6) 16)))
    /\ User.otpExpires user2 = Some (later + 5 * 60 * 1000)
    /\ mails_sent (since w1 (snd (forgotPassword email w1))) =
         [{| recipients := [email]; params := otp_param second; templateId := 2 |}].
Proof.
  intros [Hu He] Hm w1 Hm1 second.
  assert (Hrun := forgotPassword_sent w email user Hu).
  rewrite He in Hrun. specialize (Hrun Hm).
  assert (Hc1 : cursor w1 = (cursor w + 22)%nat).
  { subst w1. now rewrite Hrun. }
  assert (Hu1 : exists user1, users w1 !! email = Some user1 /\ User.email user1 = email).
  { subst w1. rewrite Hrun. cbn. eexists.
    split; [apply lookup_insert_eq | exact He]. }
  destruct Hu1 as (user1 & Hu1 & He1).
  assert (Hrun1 := forgotPassword_sent w1 email user1 Hu1).
  rewrite He1 in Hrun1. specialize (Hrun1 Hm1).
  rewrite Hrun1. cbn [snd]. eexists. split.
  { cbn. apply lookup_insert_eq. }
  unfold otp_of, salt_of. rewrite Hc1. cbn. repeat split.
  unfold otp_mail, otp_of. rewrite Hc1. now since_events.
Qed.

Lemma step_consistent (s : Step) (w : World) :
  map_Forall (fun _ u => consistent u) (users w) ->
  map_Forall (fun _ u => consistent u) (users (step s w)).
Proof.
  intros Hall.
  destruct s; unfold step; run_service; split_cases; try assumption;
    apply map_Forall_insert_2; try assumption;
    try match goal with
        | Hu : users w !! _ = Some ?t |- _ =>
            destruct (Hall _ _ Hu) as [Hotp Htok]
        end;
    unfold consistent; cbn; split; try tauto; try discriminate;
    split; discriminate.
Qed.

(** X22. Every call keeps the stored users consistent: in each of them
    [otp] and [otpExpires] are set together or absent together, and a
    verified account has its verification token cleared.  So it is after
    any sequence of calls and clock changes on a store where it was so. *)
Theorem steps_keep_users_consistent (ss : list Step) (w : World) :
  map_Forall (fun _ u => consistent u) (users w) ->
  map_Forall (fun _ u => consistent u) (users (steps ss w)).
Proof.
  revert w. induction ss as [|s ss IH]; intros w Hall; [assumption|].
  rewrite steps_cons. apply IH. now apply step_consistent.
Qed.
End Shape.

(** * Properties of the handlers *)

Lemma catching_after {A} (m : M A) (k : A -> M (list ResCall))
    (onError : Exn -> list ResCall) (w w' : World) (a : A) :
  m w = (Return a, w') ->
  catching (bind m k) onError w = catching (k a) onError w'.
Proof. intros Hm. unfold catching, bind. now rewrite Hm. Qed.

Lemma catching_thrown {A} (m : M A) (k : A -> M (list ResCall))
    (onError : Exn -> list ResCall) (w w' : World) (error : Exn) :
  m w = (Throw error, w') ->
  catching (bind m k) onError w = (onError error, w').
Proof. intros Hm. unfold catching, bind. now rewrite Hm. Qed.

Section HandlerProperties.
Context `{Env} `{ControllerEnv}.

Lemma logoutUser_returns (w : World) (token : string) :
  exists message,
    fst (logoutUser token w) = Return (Format.success DataEmpty message).
Proof. run_service. split_cases; eauto. Qed.

Lemma verifyEmail_returns (w : World) (token email : string) :
  exists result, fst (verifyEmail token email w) = Return result.
Proof. run_service. split_cases; eauto. Qed.

(** X15. A request with validation errors never reaches the service:
    every handler passes the [APIError] with [messages.bodyInvalid] and
    status 400 to [next], answers nothing else, and leaves the world as it
    was (not even the service's log line is written). *)
Theorem handlers_stop_invalid_requests (errors : list string) (w : World) :
  errors <> [] ->
  isMongoError (APIError messages_bodyInvalid 400) = false ->
  let refused := ([NextError (APIError messages_bodyInvalid 400)], w) in
  (forall input, userSignupHandler (mkReq input errors) w = refused)
  /\ (forall input, userLoginHandler (mkReq input errors) w = refused)
  /\ (forall input, verifyEmailHandler (mkReq input errors) w = refused)
  /\ (forall input, userLogoutHandler (mkReq input errors) w = refused)
  /\ (forall input, forgotPasswordHandler (mkReq input errors) w = refused)
  /\ (forall input, resetPasswordHandler (mkReq input errors) w = refused)
  /\ (forall user oldToken,
        refreshAccessTokenHandler (mkRefreshRequest user oldToken errors) w =
          (Next (APIError messages_bodyInvalid 400), w)).
Proof.
  intros Hne Hmongo refused. destruct errors as [|e errors]; [congruence|].
  repeat split; intros; try reflexivity.
  unfold userSignupHandler. cbn [req_input req_errors].
  rewrite (catching_thrown (validate (e :: errors)) _ _ w w
             (APIError messages_bodyInvalid 400) eq_refl).
  now rewrite Hmongo.
Qed.

(** X16. With validation passed, [verifyEmailHandler] redirects to the
    front end's login page whenever the query carries an email, whatever
    the service answered (also for an unknown email or a token that does
    not match); the world is the one the service left.  Without an email
    in the query it passes the [APIError] "Invalid verification link" (400)
    to [next] and the service is not called. *)
Theorem verifyEmailHandler_redirects_whatever_the_answer (w : World)
    (token : string) (email : option string) :
  (truthy_string email = true ->
   verifyEmailHandler (mkReq (token, email) []) w =
     ([ResRedirect FRONTEND_LOGIN_URL],
      snd (verifyEmail token (default "" email) w)))
  /\ (truthy_string email = false ->
      verifyEmailHandler (mkReq (token, email) []) w =
        ([NextError (APIError "Invalid verification link" 400)], w)).
Proof.
  split; intros He; enter_handler; rewrite He; cbn [negb].
  - destruct (verifyEmail_returns w token (default "" email)) as (r & Hr).
    destruct (verifyEmail token (default "" email) w) as [o w'] eqn:Hrun.
    cbn in Hr. subst o. now rewrite (catching_after _ _ _ _ _ _ Hrun).
  - reflexivity.
Qed.

(** X17. With validation passed, [userLogoutHandler] never calls [next].
    Without a refresh-token cookie (or with an empty one) it answers 200
    "User already logged out" at once: the service is not called and no
    cookie is cleared.  With a cookie it calls [logoutUser], clears the
    [refreshToken] cookie and sends the service's envelope, which is a
    success, under the envelope's own code. *)
Theorem userLogoutHandler_answers (w : World) (cookie : option string) :
  (truthy_string cookie = false ->
   userLogoutHandler (mkReq cookie []) w =
     ([ResJson 200 (JsonMessage "User already logged out")], w))
  /\ (forall token : string,
        cookie = Some token -> token <> "" ->
        exists message,
          fst (logoutUser token w) = Return (Format.success DataEmpty message)
          /\ userLogoutHandler (mkReq cookie []) w =
               ([ResClearCookie "refreshToken";
                 ResJson (Format_code (Format.success DataEmpty message))
                   (JsonEnvelope (Format.success DataEmpty message))],
                snd (logoutUser token w))).
Proof.
  split.
  - intros Hc. enter_handler. now rewrite Hc.
  - intros token -> Hne.
    destruct (logoutUser_returns w token) as (message & Hmsg).
    exists message. split; [exact Hmsg|].
    enter_handler. cbn [truthy_string default].
    apply String.eqb_neq in Hne. rewrite Hne. cbn [negb].
    destruct (logoutUser token w) as [o w'] eqn:Hrun. cbn in Hmsg. subst o.
    now rewrite (catching_after _ _ _ _ _ _ Hrun).
Qed.

(** X18. With validation passed, [userSignupHandler] passes the service's
    [APIError] for a registered email on to [next] (neither a 400 nor a
    500 body is sent) and stores nothing; for an email with no user it
    sends the "User created successfully" envelope under the envelope's
    code. *)
Theorem userSignupHandler_answers (w : World) (props : IAddUserPayload) :
  isMongoError (APIError "Account already exists with this email." 400) = false ->
  (is_Some (users w !! add_email props) ->
   userSignupHandler (mkReq props []) w =
     ([NextError (APIError "Account already exists with this email." 400)],
      emit [EvLog LogInfo "[addUser()] is called"] w))
  /\ (users w !! add_email props = None ->
      exists created,
        fst (userSignupHandler (mkReq props []) w) =
          respond (Format.success (DataUser created) "User created successfully")
        /\ created_email created = add_email props
        /\ created_isVerified created = false).
Proof.
  intros Hmongo. split.
  - intros Hreg. enter_handler.
    rewrite (catching_thrown _ _ _ _ _ _ (addUser_registered w props Hreg)).
    now rewrite Hmongo.
  - intros Hfree.
    destruct (addUser_fresh w props Hfree)
      as (user & w1 & Hrun & Hemail & Hunv & _).
    exists (toObject_sanitized user). split; [|now split].
    enter_handler. now rewrite (catching_after _ _ _ _ _ _ Hrun).
Qed.

(** X19. With validation passed and a stored user, [forgotPasswordHandler]
    passes a rejection of the mail send on to [next]: no envelope is sent
    and the user is stored without any new OTP.  When the send resolves it
    sends the "OTP sent to your email" envelope. *)
Theorem forgotPasswordHandler_answers (w : World) (email : string) (user : User.t) :
  users w !! email = Some user ->
  (forall error : Exn,
      mailer (otp_mail w (User.email user)) = Rejected error ->
      fst (forgotPasswordHandler (mkReq email []) w) = [NextError error]
      /\ users (snd (forgotPasswordHandler (mkReq email []) w)) = users w)
  /\ (mailer (otp_mail w (User.email user)) = Resolved tt ->
      fst (forgotPasswordHandler (mkReq email []) w) =
        respond (Format.success DataEmpty "OTP sent to your email")).
Proof.
  intros Hu. split.
  - intros error Hm. enter_handler.
    now rewrite (catching_thrown _ _ _ _ _ _
                   (forgotPassword_send_rejected w email user error Hu Hm)).
  - intros Hm. enter_handler.
    now rewrite (catching_after _ _ _ _ _ _ (forgotPassword_sent w email user Hu Hm)).
Qed.

(** X20. Every handler ends a request exactly once: among the calls it
    makes on [res] and [next] there is one response body, redirect or
    error passed on, never none and never two. *)
Theorem handlers_answer_exactly_once (w : World) :
  (forall req, length (List.filter is_answer (fst (userSignupHandler req w))) = 1%nat)
  /\ (forall req, length (List.filter is_answer (fst (userLoginHandler req w))) = 1%nat)
  /\ (forall req, length (List.filter is_answer (fst (verifyEmailHandler req w))) = 1%nat)
  /\ (forall req, length (List.filter is_answer (fst (userLogoutHandler req w))) = 1%nat)
  /\ (forall req, length (List.filter is_answer (fst (forgotPasswordHandler req w))) = 1%nat)
  /\ (forall req, length (List.filter is_answer (fst (resetPasswordHandler req w))) = 1%nat).
Proof.
  repeat split; intros [input [|e errors]]; run_handler; split_cases;
    reflexivity.
Qed.
End HandlerProperties.

(** ** The further properties at work on Alice *)

Lemma loginUser_wrong_password_witness :
  @loginUser demoEnv (aliceLogin "guess") (worldOf aliceVerified 1000) =
    (Return (Format.unAuthorized "Invalid credentials"),
     emit [EvLog LogInfo "[loginUser()] is called"] (worldOf aliceVerified 1000)).
Proof.
  apply (@loginUser_wrong_password demoEnv (worldOf aliceVerified 1000)
           aliceVerified (aliceLogin "guess")); vm_compute; reflexivity.
Defined.

Lemma loginUser_success_witness :
  exists w',
    @loginUser demoEnv (aliceLogin "P@ssw0rd") (worldOf aliceVerified 1000) =
      (Return (Format.success (DataAccessToken "access.u1") "User login successful"),
       w')
    /\ (User.lastLogin <$> users w' !! "a@x.com") = Some (Some 1000).
Proof.
  destruct (@loginUser_success demoEnv (worldOf aliceVerified 1000)
              aliceVerified (aliceLogin "P@ssw0rd"))
    as (w' & Hrun & Hus & _); try (vm_compute; reflexivity).
  exists w'. split; [exact Hrun|]. rewrite Hus. vm_compute; reflexivity.
Defined.

Lemma loginUser_tokens_only_when_authenticated_witness :
  exists user,
    users (worldOf aliceVerified 1000) !! "a@x.com" = Some user
    /\ User.isVerified user = true
    /\ @password_matches demoEnv user "P@ssw0rd" = true.
Proof.
  apply (@loginUser_tokens_only_when_authenticated demoEnv
           (worldOf aliceVerified 1000) (aliceLogin "P@ssw0rd")).
  left. vm_compute. discriminate.
Defined.

Lemma forgotPassword_then_resetPassword_witness :
  let w1 := snd (@forgotPassword demoEnv "a@x.com" (worldOf aliceVerified 1000)) in
  fst (@resetPassword demoEnv (mkReset "a@x.com" "hunter2" "00254a6f94b9")
         (set_now 301000 w1)) =
    Return (Format.success DataEmpty "Password reset successfully")
  /\ fst (@resetPassword demoEnv (mkReset "a@x.com" "hunter2" "00254a6f94b9")
            (set_now 301001 w1)) =
       Return (Format.badRequest "OTP expired").
Proof.
  intros w1. split.
  - apply (@forgotPassword_then_resetPassword demoEnv (worldOf aliceVerified 1000)
             aliceVerified (mkReset "a@x.com" "hunter2" "00254a6f94b9") 301000);
      try (vm_compute; reflexivity); try (vm_compute; discriminate).
    split; vm_compute; reflexivity.
  - apply (@forgotPassword_then_resetPassword demoEnv (worldOf aliceVerified 1000)
             aliceVerified (mkReset "a@x.com" "hunter2" "00254a6f94b9") 301001);
      try (vm_compute; reflexivity); try (vm_compute; discriminate).
    split; vm_compute; reflexivity.
Defined.

Lemma resetPassword_otp_serves_once_witness :
  let w1 := set_now 2000
              (snd (@resetPassword demoEnv (mkReset "a@x.com" "hunter2" "4a6f9c01d2e3")
                      (worldOf aliceWithOtp 1000))) in
  fst (@resetPassword demoEnv (mkReset "a@x.com" "hunter3" "4a6f9c01d2e3") w1) =
    Return (Format.badRequest "OTP expired")
  /\ users (snd (@resetPassword demoEnv (mkReset "a@x.com" "hunter3" "4a6f9c01d2e3") w1)) =
       users w1.
Proof.
  apply (@resetPassword_otp_serves_once demoEnv (worldOf aliceWithOtp 1000)
           aliceWithOtp (mkReset "a@x.com" "hunter2" "4a6f9c01d2e3")
           (mkReset "a@x.com" "hunter3" "4a6f9c01d2e3") 2000);
    try (vm_compute; reflexivity).
  split; vm_compute; reflexivity.
Defined.

Lemma steps_keep_identity_and_verification_witness :
  exists user',
    users (@steps demoEnv aliceDay (worldOf aliceVerified 1000)) !! "a@x.com" =
      Some user'
    /\ User.id user' = "u1"
    /\ User.email user' = "a@x.com"
    /\ (User.isVerified aliceVerified = true -> User.isVerified user' = true).
Proof.
  apply (@steps_keep_identity_and_verification demoEnv aliceDay
           (worldOf aliceVerified 1000) "a@x.com" aliceVerified).
  - apply keyed_by_email_worldOf.
  - vm_compute; reflexivity.
Defined.

Lemma steps_without_reset_keep_password_witness :
  exists user',
    users (@steps demoEnv aliceDay (worldOf aliceVerified 1000)) !! "a@x.com" =
      Some user'
    /\ User.password user' = "P@ssw0rd".
Proof.
  apply (@steps_without_reset_keep_password demoEnv aliceDay
           (worldOf aliceVerified 1000) "a@x.com" aliceVerified).
  - apply keyed_by_email_worldOf.
  - vm_compute; reflexivity.
  - repeat constructor.
Defined.

Lemma steps_without_revocation_keep_blacklist_witness :
  blacklist (@steps demoEnv
               [CallAddUser (mkAddUser "b@x.com" "pw"); CallLoginUser (aliceLogin "P@ssw0rd");
                CallForgotPassword "a@x.com";
                CallResetPassword (mkReset "a@x.com" "hunter2" "x")]
               (worldOf aliceVerified 1000)) = ∅.
Proof.
  apply (@steps_without_revocation_keep_blacklist demoEnv _ (worldOf aliceVerified 1000)).
  repeat constructor.
Defined.

Lemma steps_keep_blacklisted_witness :
  is_Some (blacklist
             (@steps demoEnv (CallLogoutUser "refresh.u1" :: aliceDay)
                (snd (@logoutUser demoEnv "refresh.u1" emptyWorld)))
           !! "refresh.u1").
Proof.
  apply (@steps_keep_blacklisted demoEnv).
  exists 900000. vm_compute; reflexivity.
Defined.

Lemma signup_then_verify_then_login_witness :
  exists (user : User.t) (T : string) (w1 w2 : World),
    @addUser demoEnv (mkAddUser "a@x.com" "P@ssw0rd") emptyWorld =
      (Return (Format.success (DataUser (toObject_sanitized user))
                 "User created successfully"), w1)
    /\ verifyEmail T "a@x.com" w1 =
         (Return (Format.success DataEmpty "Email verified successfully"), w2)
    /\ fst (@loginUser demoEnv (aliceLogin "P@ssw0rd") w2) =
         if @password_matches demoEnv (verified user) "P@ssw0rd"
         then Return (Format.success
                        (DataAccessToken
                           (accessToken (@jwt_sign demoEnv (User.id user) "a@x.com" 1000)))
                        "User login successful")
         else Return (Format.unAuthorized "Invalid credentials").
Proof.
  destruct (@signup_then_verify_then_login demoEnv emptyWorld
              (mkAddUser "a@x.com" "P@ssw0rd") "P@ssw0rd")
    as (user & T & w1 & w2 & Hadd & _ & _ & _ & Hverify & Hlogin).
  - vm_compute; reflexivity.
  - exists user, T, w1, w2. split; [exact Hadd|]. split; [exact Hverify|exact Hlogin].
Defined.

Lemma handlers_stop_invalid_requests_witness :
  @userLoginHandler demoEnv demoControllerEnv
    (mkReq (aliceLogin "P@ssw0rd") ["password is too short"])
    (worldOf aliceVerified 1000) =
    ([NextError (APIError "Invalid request body" 400)], worldOf aliceVerified 1000).
Proof.
  apply (@handlers_stop_invalid_requests demoEnv demoControllerEnv
           ["password is too short"] (worldOf aliceVerified 1000));
    [discriminate | reflexivity].
Defined.

Lemma verifyEmailHandler_redirects_whatever_the_answer_witness :
  fst (verifyEmail "not the token" "a@x.com" (worldOf alice 1000)) =
    Return (Format.badRequest "Invalid verification link")
  /\ fst (@verifyEmailHandler demoEnv demoControllerEnv
            (mkReq ("not the token", Some "a@x.com") []) (worldOf alice 1000)) =
       [ResRedirect "https://app.example.org/login"].
Proof.
  split; [vm_compute; reflexivity|].
  now rewrite (proj1 (@verifyEmailHandler_redirects_whatever_the_answer demoEnv
                        demoControllerEnv (worldOf alice 1000) "not the token"
                        (Some "a@x.com")) eq_refl).
Defined.

Lemma userLogoutHandler_answers_witness :
  @userLogoutHandler demoEnv demoControllerEnv (mkReq None []) emptyWorld =
    ([ResJson 200 (JsonMessage "User already logged out")], emptyWorld)
  /\ fst (@userLogoutHandler demoEnv demoControllerEnv (mkReq (Some "refresh.u1") [])
            emptyWorld) =
       [ResClearCookie "refreshToken";
        ResJson 200 (JsonEnvelope (Format.success DataEmpty "User logged out successfully"))].
Proof.
  split.
  - apply (proj1 (@userLogoutHandler_answers demoEnv demoControllerEnv emptyWorld None)).
    reflexivity.
  - destruct (proj2 (@userLogoutHandler_answers demoEnv demoControllerEnv emptyWorld
                       (Some "refresh.u1")) "refresh.u1" eq_refl)
      as (message & Hmsg & Hrun); [discriminate|].
    rewrite Hrun. cbn [fst]. vm_compute in Hmsg.
    injection Hmsg as <-. reflexivity.
Defined.

Lemma userSignupHandler_answers_witness :
  @userSignupHandler demoEnv demoControllerEnv
    (mkReq (mkAddUser "a@x.com" "again") []) (worldOf alice 1000) =
    ([NextError (APIError "Account already exists with this email." 400)],
     emit [EvLog LogInfo "[addUser()] is called"] (worldOf alice 1000)).
Proof.
  apply (proj1 (@userSignupHandler_answers demoEnv demoControllerEnv
                  (worldOf alice 1000) (mkAddUser "a@x.com" "again") eq_refl)).
  exists alice. vm_compute; reflexivity.
Defined.

Lemma forgotPasswordHandler_answers_witness :
  fst (@forgotPasswordHandler mailDownEnv demoControllerEnv (mkReq "a@x.com" [])
         (worldOf aliceVerified 1000)) = [NextError mailDown]
  /\ fst (@forgotPasswordHandler demoEnv demoControllerEnv (mkReq "a@x.com" [])
            (worldOf aliceVerified 1000)) =
       [ResJson 200 (JsonEnvelope (Format.success DataEmpty "OTP sent to your email"))].
Proof.
  split.
  - apply (proj1 (@forgotPasswordHandler_answers mailDownEnv demoControllerEnv
                    (worldOf aliceVerified 1000) "a@x.com" aliceVerified
                    ltac:(vm_compute; reflexivity)) mailDown).
    reflexivity.
  - apply (proj2 (@forgotPasswordHandler_answers demoEnv demoControllerEnv
                    (worldOf aliceVerified 1000) "a@x.com" aliceVerified
                    ltac:(vm_compute; reflexivity))).
    reflexivity.
Defined.

Lemma forgotPassword_again_replaces_otp_witness :
  let w1 := set_now 5000
              (snd (@forgotPassword demoEnv "a@x.com" (worldOf aliceVerified 1000))) in
  exists user2,
    users (snd (@forgotPassword demoEnv "a@x.com" w1)) !! "a@x.com" = Some user2
    /\ User.otp user2 = Some "bcrypt(2e53789dc2e7)"
    /\ User.otpExpires user2 = Some 305000.
Proof.
  intros w1.
  destruct (@forgotPassword_again_replaces_otp demoEnv (worldOf aliceVerified 1000)
              "a@x.com" aliceVerified 5000)
    as (user2 & Hu2 & Hotp & Hexp & _); try reflexivity.
  - split; vm_compute; reflexivity.
  - exists user2. split; [exact Hu2|]. split; [|exact Hexp].
    rewrite Hotp. vm_compute; reflexivity.
Defined.

Lemma steps_keep_users_consistent_witness :
  map_Forall (fun _ u => consistent u)
    (users (@steps demoEnv
              (CallAddUser (mkAddUser "a@x.com" "P@ssw0rd") :: aliceDay) emptyWorld)).
Proof.
  apply (@steps_keep_users_consistent demoEnv). apply map_Forall_empty.
Defined.
